(** * Boxing simulator: boxers table, ring and fight

    A shallow embedding of [boxing/models/boxers_model.py],
    [boxing/models/ring_model.py] and [boxing/utils/api_utils.py].

    - Python [int] is [Z]; [str] is [string]; exceptions are values of
      [exn] carrying the message the source builds.
    - Python [float] (binary64) is a real number together with a rounding
      operator: every float operation is the exact operation followed by
      [rnd].  The operator, the power [math.e ** x] and the builtin
      [round(x, 1)] are the fields of the class [Binary64], with the
      order facts the proofs use.  [Exact] is the instance without
      rounding error.  Overflow, infinities and NaN are outside the model.
    - The program state (the ring of the [RingModel] object, the rows of
      table [boxers], the answers random.org is going to give, and a log
      of the calls made to the two collaborators) is threaded through the
      state-and-exception monad [Py].
    - SQL statements are the list operations they compute; a failure of the
      database itself ([sqlite3.Error]) is outside the model, and so are the
      messages sent to the logger. *)

From Stdlib Require Import ZArith List String Ascii Bool Lia.
From Stdlib Require Import DecimalString.
From Stdlib Require Import Reals Lra.
From Stdlib Require Import Permutation Sorted.
Import ListNotations.

Open Scope string_scope.
Open Scope list_scope.
Open Scope Z_scope.

(** ** Floats *)

Class Binary64 : Type := {
  (** rounding to the nearest representable number *)
  rnd : R -> R;
  rnd_monotone : forall x y : R, (x <= y)%R -> (rnd x <= rnd y)%R;
  rnd_0 : rnd 0 = 0%R;
  rnd_half : rnd (1 / 2) = (1 / 2)%R;
  rnd_1 : rnd 1 = 1%R;
  rnd_2 : rnd 2 = 2%R;
  (** [math.e ** x] *)
  pow_e : R -> R;
  pow_e_0 : pow_e 0 = 1%R;
  pow_e_nonpos : forall x : R, (x <= 0)%R -> (0 <= pow_e x <= 1)%R;
  (** the builtin [round(x, 1)] *)
  round1 : R -> R;
  round1_monotone : forall x y : R, (x <= y)%R -> (round1 x <= round1 y)%R;
  (** [str(x)], the text an f-string prints for a float; it only shows in
      an error message and nothing is asked of it *)
  fstr : R -> string
}.

Section FloatOps.
Context {F : Binary64}.

Definition fadd (x y : R) : R := rnd (x + y).
Definition fsub (x y : R) : R := rnd (x - y).
Definition fmul (x y : R) : R := rnd (x * y).
Definition fdiv (x y : R) : R := rnd (x / y).
(** conversion of an [int] operand in mixed arithmetic *)
Definition of_int (n : Z) : R := rnd (IZR n).
End FloatOps.

(** Decimal rounding to the nearest integer, ties to even. *)
Definition nearest_even (t : R) : Z :=
  let f := Int_part t in
  if Rlt_dec (t - IZR f) (1 / 2) then f
  else if Rlt_dec (1 / 2) (t - IZR f) then f + 1
  else if Z.even f then f else f + 1.

Definition round1_exact (x : R) : R := (IZR (nearest_even (x * 10)) / 10)%R.

(** ** Exceptions *)

Inductive exn : Type :=
| ValueError (msg : string)
| TypeError (msg : string)
| RuntimeError (msg : string).

Inductive result (A : Type) : Type :=
| Ok (a : A)
| Raise (e : exn).
Arguments Ok {A} a.
Arguments Raise {A} e.

(** [str(n)] for an [int]. *)
Definition str (n : Z) : string := NilZero.string_of_int (Z.to_int n).

(** The exceptions of the source, under the names the specification
    gives them. *)
Definition InvalidAttribute (weight : Z) : exn :=
  ValueError ("Invalid weight: " ++ str weight ++ ". Weight must be at least 125.")%string.
Definition InvalidResult (result : string) : exn :=
  ValueError ("Invalid result: " ++ result ++ ". Expected 'win' or 'loss'.")%string.
Definition NotFound (boxer_id : Z) : exn :=
  ValueError ("Boxer with ID " ++ str boxer_id ++ " not found.")%string.
Definition InvalidSortBy (sort_by : string) : exn :=
  ValueError ("Invalid sort_by parameter: " ++ sort_by)%string.
Definition InvalidWeight (weight : Z) : exn :=
  ValueError ("Invalid weight: " ++ str weight ++ ". Must be at least 125.")%string.
Definition InvalidHeight (height : Z) : exn :=
  ValueError ("Invalid height: " ++ str height ++ ". Must be greater than 0.")%string.
Definition InvalidReach (reach : string) : exn :=
  ValueError ("Invalid reach: " ++ reach ++ ". Must be greater than 0.")%string.
Definition InvalidAge (age : Z) : exn :=
  ValueError ("Invalid age: " ++ str age ++ ". Must be between 18 and 40.")%string.
Definition DuplicateName (name : string) : exn :=
  ValueError ("Boxer with name '" ++ name ++ "' already exists")%string.
Definition NameNotFound (boxer_name : string) : exn :=
  ValueError ("Boxer '" ++ boxer_name ++ "' not found.")%string.
Definition InsufficientOccupants : exn :=
  ValueError "There must be two boxers to start a fight.".
Definition RingFull : exn :=
  ValueError "Ring is full, cannot add more boxers.".
Definition TypeMismatch (type_name : string) : exn :=
  TypeError ("Invalid type: Expected 'Boxer', got '" ++ type_name ++ "'")%string.
Definition RandomTimeout : exn :=
  RuntimeError "Request to random.org timed out.".
Definition RandomUnavailable (why : string) : exn :=
  RuntimeError ("Request to random.org failed: " ++ why)%string.
Definition MalformedResponse (text : string) : exn :=
  ValueError ("Invalid response from random.org: " ++ text)%string.
(** Raised by the unpacking [boxer_1, boxer_2 = ...] on a longer list. *)
Definition TooManyValues : exn :=
  ValueError "too many values to unpack (expected 2)".

(** The two families of argument errors of the specification. *)
Definition InvalidArgument (e : exn) : Prop :=
  (exists result, e = InvalidResult result) \/
  (exists sort_by, e = InvalidSortBy sort_by).

(** ** boxers_model.py *)

(** [get_weight_class] *)
Definition get_weight_class (weight : Z) : result string :=
  if weight >=? 203 then Ok "HEAVYWEIGHT"
  else if weight >=? 166 then Ok "MIDDLEWEIGHT"
  else if weight >=? 133 then Ok "LIGHTWEIGHT"
  else if weight >=? 125 then Ok "FEATHERWEIGHT"
  else Raise (InvalidAttribute weight).

(** The dataclass [Boxer]; [weight_class] is filled by [__post_init__]. *)
Record Boxer : Type := mkBoxer {
  id : Z;
  name : string;
  weight : Z;
  height : Z;
  reach : R;
  age : Z;
  weight_class : string
}.

(** [Boxer(id, name, weight, height, reach, age)]: the generated
    [__init__] followed by [__post_init__]. *)
Definition Boxer_init (id : Z) (name : string) (weight height : Z)
    (reach : R) (age : Z) : result Boxer :=
  match get_weight_class weight with
  | Ok wc => Ok (mkBoxer id name weight height reach age wc)
  | Raise e => Raise e
  end.

(** A row of table [boxers]. *)
Record row : Type := mkRow {
  row_id : Z;
  row_name : string;
  row_weight : Z;
  row_height : Z;
  row_reach : R;
  row_age : Z;
  row_fights : Z;
  row_wins : Z
}.

(** ** Program state and the monad of effects *)

(** A call to one of the ring's two collaborators. *)
Inductive call : Type :=
| CallGetRandom
| CallUpdateBoxerStats (boxer_id : Z) (result : string).

(** What one request to random.org comes back with: a timeout, any other
    request failure ([raise_for_status] included), or a body, given as its
    stripped text and what [float(text)] makes of it. *)
Inductive response : Type :=
| TimedOut
| Failed (why : string)
| Text (text : string) (value : option R).

Record State : Type := mkState {
  ring : list Boxer;            (** [RingModel.ring] *)
  boxers : list row;            (** table [boxers] *)
  random_org : nat -> response; (** the answer to the n-th request *)
  requests : nat;               (** requests made so far *)
  calls : list call             (** collaborator calls, oldest first *)
}.

Definition Py (A : Type) : Type := State -> result A * State.

Definition ret {A : Type} (a : A) : Py A := fun s => (Ok a, s).

Definition raise {A : Type} (e : exn) : Py A := fun s => (Raise e, s).

Definition bind {A B : Type} (c : Py A) (k : A -> Py B) : Py B :=
  fun s =>
    match c s with
    | (Ok a, s') => k a s'
    | (Raise e, s') => (Raise e, s')
    end.

Notation "x <- c ;; k" := (bind c (fun x => k))
  (at level 61, c at next level, right associativity).
Notation "c ;; k" := (bind c (fun _ => k))
  (at level 61, right associativity).

Definition get : Py State := fun s => (Ok s, s).

Definition set_ring (r : list Boxer) : Py unit :=
  fun s => (Ok tt, mkState r (boxers s) (random_org s) (requests s) (calls s)).

Definition set_boxers (t : list row) : Py unit :=
  fun s => (Ok tt, mkState (ring s) t (random_org s) (requests s) (calls s)).

Definition next_request : Py response :=
  fun s => (Ok (random_org s (requests s)),
            mkState (ring s) (boxers s) (random_org s) (S (requests s)) (calls s)).

Definition called (c : call) : Py unit :=
  fun s => (Ok tt,
            mkState (ring s) (boxers s) (random_org s) (requests s) (calls s ++ [c])).

(** Lifting of a pure computation that may raise. *)
Definition lift {A : Type} (r : result A) : Py A := fun s => (r, s).

(** ** Table [boxers] *)

(** [SELECT ... FROM boxers WHERE p] *)
Definition select_where (p : row -> bool) : Py (list row) :=
  s <- get ;; ret (filter p (boxers s)).

(** [UPDATE boxers SET ... WHERE p] *)
Definition update_where (set : row -> row) (p : row -> bool) : Py unit :=
  s <- get ;; set_boxers (map (fun r => if p r then set r else r) (boxers s)).

(** [SET fights = fights + 1, wins = wins + 1] *)
Definition set_win (r : row) : row :=
  mkRow (row_id r) (row_name r) (row_weight r) (row_height r) (row_reach r)
        (row_age r) (row_fights r + 1) (row_wins r + 1).

(** [SET fights = fights + 1] *)
Definition set_loss (r : row) : row :=
  mkRow (row_id r) (row_name r) (row_weight r) (row_height r) (row_reach r)
        (row_age r) (row_fights r + 1) (row_wins r).

Definition has_id (boxer_id : Z) (r : row) : bool := row_id r =? boxer_id.

(** [update_boxer_stats] *)
Definition update_boxer_stats (boxer_id : Z) (result : string) : Py unit :=
  called (CallUpdateBoxerStats boxer_id result) ;;
  if negb (existsb (String.eqb result) ["win"; "loss"]) then
    raise (InvalidResult result)
  else
    found <- select_where (has_id boxer_id) ;;
    match found with
    | [] => raise (NotFound boxer_id)
    | _ :: _ =>
        if (result =? "win")%string then update_where set_win (has_id boxer_id)
        else update_where set_loss (has_id boxer_id)
    end.

(** Modelled from the spec: the id and the counters of an inserted row.
    The schema of table [boxers] is not among the sources; the specification
    has the id unique and assigned by the store and the counters starting at
    0.  The id is one more than the largest id in the table. *)
Definition assigned_id (t : list row) : Z :=
  fold_right (fun r m => Z.max (row_id r) m) 0 t + 1.

(** [INSERT INTO boxers (name, weight, height, reach, age) VALUES ...] *)
Definition insert_boxer (name : string) (weight height : Z) (reach : R)
    (age : Z) : Py unit :=
  s <- get ;;
  set_boxers (boxers s ++
              [mkRow (assigned_id (boxers s)) name weight height reach age 0 0]).

(** [DELETE FROM boxers WHERE p] *)
Definition delete_where (p : row -> bool) : Py unit :=
  s <- get ;; set_boxers (filter (fun r => negb (p r)) (boxers s)).

(** [create_boxer] *)
Definition create_boxer {F : Binary64} (name : string) (weight height : Z)
    (reach : R) (age : Z) : Py unit :=
  if weight <? 125 then raise (InvalidWeight weight)
  else if height <=? 0 then raise (InvalidHeight height)
  else if Rle_dec reach 0 then raise (InvalidReach (fstr reach))
  else if negb ((18 <=? age) && (age <=? 40)) then raise (InvalidAge age)
  else
    found <- select_where (fun r => (row_name r =? name)%string) ;;
    match found with
    | _ :: _ => raise (DuplicateName name)
    | [] => insert_boxer name weight height reach age
    end.

(** [delete_boxer] *)
Definition delete_boxer (boxer_id : Z) : Py unit :=
  found <- select_where (has_id boxer_id) ;;
  match found with
  | [] => raise (NotFound boxer_id)
  | _ :: _ => delete_where (has_id boxer_id)
  end.

(** The [Boxer] built from the first fetched row. *)
Definition boxer_of_row (r : row) : result Boxer :=
  Boxer_init (row_id r) (row_name r) (row_weight r) (row_height r)
             (row_reach r) (row_age r).

(** [get_boxer_by_id] *)
Definition get_boxer_by_id (boxer_id : Z) : Py Boxer :=
  found <- select_where (has_id boxer_id) ;;
  match found with
  | r :: _ => lift (boxer_of_row r)
  | [] => raise (NotFound boxer_id)
  end.

(** [get_boxer_by_name] *)
Definition get_boxer_by_name (boxer_name : string) : Py Boxer :=
  found <- select_where (fun r => (row_name r =? boxer_name)%string) ;;
  match found with
  | r :: _ => lift (boxer_of_row r)
  | [] => raise (NameNotFound boxer_name)
  end.

(** ** api_utils.py *)

(** [get_random] *)
Definition get_random : Py R :=
  called CallGetRandom ;;
  answer <- next_request ;;
  match answer with
  | TimedOut => raise RandomTimeout
  | Failed why => raise (RandomUnavailable why)
  | Text text (Some random_number) => ret random_number
  | Text text None => raise (MalformedResponse text)
  end.

(** ** ring_model.py *)

(** A Python value handed to [enter_ring]. *)
Inductive object : Type :=
| ABoxer (b : Boxer)
| AnInt (n : Z)
| AStr (s : string)
| AFloat (x : R)
| ANone.

(** [type(o).__name__] *)
Definition type_name (o : object) : string :=
  match o with
  | ABoxer _ => "Boxer"
  | AnInt _ => "int"
  | AStr _ => "str"
  | AFloat _ => "float"
  | ANone => "NoneType"
  end.

Section Ring.
Context {F : Binary64}.

(** [RingModel.get_fighting_skill] *)
Definition get_fighting_skill (boxer : Boxer) : R :=
  let age_modifier :=
    if age boxer <? 25 then -1 else if age boxer >? 35 then -2 else 0 in
  fadd (fadd (of_int (weight boxer * Z.of_nat (String.length (name boxer))))
             (fdiv (reach boxer) (of_int 10)))
       (of_int age_modifier).

(** [RingModel.clear_ring] *)
Definition clear_ring : Py unit :=
  s <- get ;;
  match ring s with
  | [] => ret tt
  | _ :: _ => set_ring []
  end.

(** [RingModel.enter_ring] *)
Definition enter_ring (boxer : object) : Py unit :=
  match boxer with
  | ABoxer b =>
      s <- get ;;
      if (2 <=? List.length (ring s))%nat then raise RingFull
      else set_ring (ring s ++ [b])
  | _ => raise (TypeMismatch (type_name boxer))
  end.

(** [RingModel.get_boxers] *)
Definition get_boxers : Py (list Boxer) :=
  s <- get ;; ret (ring s).

(** [math.e ** (-delta)] turned into the winning threshold of boxer 1 *)
Definition normalized_delta (skill_1 skill_2 : R) : R :=
  let delta := Rabs (fsub skill_1 skill_2) in
  fdiv (of_int 1) (fadd (of_int 1) (pow_e (- delta))).

(** [RingModel.fight] *)
Definition fight : Py string :=
  s <- get ;;
  if (List.length (ring s) <? 2)%nat then raise InsufficientOccupants
  else
    both <- get_boxers ;;
    match both with
    | [boxer_1; boxer_2] =>
        let skill_1 := get_fighting_skill boxer_1 in
        let skill_2 := get_fighting_skill boxer_2 in
        random_number <- get_random ;;
        let '(winner, loser) :=
          if Rlt_dec random_number (normalized_delta skill_1 skill_2)
          then (boxer_1, boxer_2) else (boxer_2, boxer_1) in
        update_boxer_stats (id winner) "win" ;;
        update_boxer_stats (id loser) "loss" ;;
        clear_ring ;;
        ret (name winner)
    | _ => raise TooManyValues
    end.
End Ring.

(** ** The leaderboard *)

(** One dictionary of the list [get_leaderboard] returns, a field per key. *)
Record entry : Type := mkEntry {
  entry_id : Z;
  entry_name : string;
  entry_weight : Z;
  entry_height : Z;
  entry_reach : R;
  entry_age : Z;
  entry_weight_class : string;
  entry_fights : Z;
  entry_wins : Z;
  entry_win_pct : R
}.

(** [ORDER BY key DESC]: insertion into a list already in descending order,
    ahead of the first row that is not above the new one. *)
Fixpoint insert_desc {A : Type} (ge : A -> A -> bool) (x : A) (l : list A)
    : list A :=
  match l with
  | [] => [x]
  | y :: l' => if ge x y then x :: l else y :: insert_desc ge x l'
  end.

Definition order_by_desc {A : Type} (ge : A -> A -> bool) (l : list A)
    : list A :=
  fold_right (insert_desc ge) [] l.

Definition Rgeb (x y : R) : bool := if Rle_dec y x then true else false.

Section Leaderboard.
Context {F : Binary64}.

(** The column [(wins * 1.0 / fights) AS win_pct] of the query. *)
Definition win_ratio (r : row) : R :=
  fdiv (fmul (of_int (row_wins r)) 1) (of_int (row_fights r)).

(** [round(row[8] * 100, 1)] *)
Definition win_pct (r : row) : R :=
  round1 (fmul (win_ratio r) (of_int 100)).

(** The body of the loop over the fetched rows. *)
Definition leaderboard_entry (r : row) : result entry :=
  match get_weight_class (row_weight r) with
  | Ok wc =>
      Ok (mkEntry (row_id r) (row_name r) (row_weight r) (row_height r)
                  (row_reach r) (row_age r) wc (row_fights r) (row_wins r)
                  (win_pct r))
  | Raise e => Raise e
  end.

(** The loop [for row in rows: ... leaderboard.append(boxer)]. *)
Fixpoint leaderboard_loop (rows : list row) : result (list entry) :=
  match rows with
  | [] => Ok []
  | r :: rest =>
      match leaderboard_entry r with
      | Ok boxer =>
          match leaderboard_loop rest with
          | Ok leaderboard => Ok (boxer :: leaderboard)
          | Raise e => Raise e
          end
      | Raise e => Raise e
      end
  end.

(** [get_leaderboard] *)
Definition get_leaderboard (sort_by : string) : Py (list entry) :=
  order <-
    (if (sort_by =? "win_pct")%string then
       ret (order_by_desc (fun r1 r2 => Rgeb (win_ratio r1) (win_ratio r2)))
     else if (sort_by =? "wins")%string then
       ret (order_by_desc (fun r1 r2 => row_wins r1 >=? row_wins r2))
     else raise (InvalidSortBy sort_by)) ;;
  selected <- select_where (fun r => row_fights r >? 0) ;;
  lift (leaderboard_loop (order selected)).
End Leaderboard.

(** * Vocabulary of the statements *)

(** The table after a successful [update_boxer_stats boxer_id result]. *)
Definition stats_updated (boxer_id : Z) (result : string) (t : list row)
    : list row :=
  map (fun r =>
         if row_id r =? boxer_id then
           mkRow (row_id r) (row_name r) (row_weight r) (row_height r)
                 (row_reach r) (row_age r) (row_fights r + 1)
                 (row_wins r + (if (result =? "win")%string then 1 else 0))
         else r) t.

(** The state once random.org has been asked. *)
Definition after_draw (s : State) : State :=
  mkState (ring s) (boxers s) (random_org s) (S (requests s))
          (calls s ++ [CallGetRandom]).

(** The last four statements of [fight], once winner and loser are known. *)
Definition settle (winner loser : Boxer) : Py string :=
  update_boxer_stats (id winner) "win" ;;
  update_boxer_stats (id loser) "loss" ;;
  clear_ring ;;
  ret (name winner).

(** The operations of a ring. *)
Inductive operation : Type :=
| Enter (boxer : object)
| Fight
| Clear
| GetBoxers.

(** The state an operation leaves, whether it returns or raises. *)
Definition state_after {F : Binary64} (op : operation) (s : State) : State :=
  match op with
  | Enter boxer => snd (enter_ring boxer s)
  | Fight => snd (fight s)
  | Clear => snd (clear_ring s)
  | GetBoxers => snd (get_boxers s)
  end.

(** An entry of the leaderboard shows a row: the row's columns, the weight
    class of its weight, and [round(wins * 1.0 / fights * 100, 1)]. *)
Definition listed {F : Binary64} (r : row) (e : entry) : Prop :=
  entry_id e = row_id r /\
  entry_name e = row_name r /\
  entry_weight e = row_weight r /\
  entry_height e = row_height r /\
  entry_reach e = row_reach r /\
  entry_age e = row_age r /\
  get_weight_class (row_weight r) = Ok (entry_weight_class e) /\
  entry_fights e = row_fights r /\
  entry_wins e = row_wins r /\
  entry_win_pct e =
    round1 (fmul (fdiv (fmul (of_int (row_wins r)) 1) (of_int (row_fights r)))
                 (of_int 100)).

(** The bounds [create_boxer] checks, and counters that make sense. *)
Definition row_sound (r : row) : Prop :=
  125 <= row_weight r /\
  0 < row_height r /\
  (0 < row_reach r)%R /\
  18 <= row_age r <= 40 /\
  0 <= row_wins r <= row_fights r.

(** A table of sound rows in which no name occurs twice. *)
Definition table_sound (t : list row) : Prop :=
  Forall row_sound t /\ NoDup (map row_name t).

(** The same boxer before and after an update of statistics: every column
    but the two counters is the same, and no counter went down. *)
Definition counted_up (r r' : row) : Prop :=
  row_id r' = row_id r /\
  row_name r' = row_name r /\
  row_weight r' = row_weight r /\
  row_height r' = row_height r /\
  row_reach r' = row_reach r /\
  row_age r' = row_age r /\
  row_fights r <= row_fights r' /\
  row_wins r <= row_wins r'.

(** A call of one of the functions of the two models. *)
Inductive command : Type :=
| CreateBoxer (name : string) (weight height : Z) (reach : R) (age : Z)
| DeleteBoxer (boxer_id : Z)
| UpdateBoxerStats (boxer_id : Z) (result : string)
| GetLeaderboard (sort_by : string)
| GetBoxerById (boxer_id : Z)
| GetBoxerByName (boxer_name : string)
| OnRing (op : operation).

(** The state a call leaves, whether it returns or raises. *)
Definition run {F : Binary64} (c : command) (s : State) : State :=
  match c with
  | CreateBoxer name weight height reach age =>
      snd (create_boxer name weight height reach age s)
  | DeleteBoxer boxer_id => snd (delete_boxer boxer_id s)
  | UpdateBoxerStats boxer_id result => snd (update_boxer_stats boxer_id result s)
  | GetLeaderboard sort_by => snd (get_leaderboard sort_by s)
  | GetBoxerById boxer_id => snd (get_boxer_by_id boxer_id s)
  | GetBoxerByName boxer_name => snd (get_boxer_by_name boxer_name s)
  | OnRing op => state_after op s
  end.

(** ** Sample data *)

Definition tyson : Boxer := mkBoxer 1 "Mike Tyson" 220 178 71 25 "HEAVYWEIGHT".
Definition ali : Boxer := mkBoxer 2 "Muhammad Ali" 215 191 78 30 "HEAVYWEIGHT".

Definition tyson_row : row := mkRow 1 "Mike Tyson" 220 178 71 25 0 0.
Definition ali_row : row := mkRow 2 "Muhammad Ali" 215 191 78 30 0 0.

(** random.org answering 0.10 to every request. *)
Definition always_tenth : nat -> response :=
  fun _ => Text "0.10" (Some (1 / 10)%R).


(** Three rows: 8 wins in 10 fights, 5 wins in 5 fights, and no fight. *)
Definition veteran_row : row := mkRow 1 "Veteran" 180 180 70 35 10 8.
Definition prospect_row : row := mkRow 2 "Prospect" 150 175 68 22 5 5.
Definition newcomer_row : row := mkRow 3 "Newcomer" 130 170 65 19 0 0.

Definition three_rows : State :=
  mkState [] [veteran_row; prospect_row; newcomer_row] always_tenth 0 [].

(** ** A rounding next to 1 *)



(** * Facts about the float model *)

Section FloatFacts.
Context {F : Binary64}.

Lemma of_int_0 : of_int 0 = 0%R.
Proof. unfold of_int. apply rnd_0. Qed.

Lemma of_int_1 : of_int 1 = 1%R.
Proof. unfold of_int. apply rnd_1. Qed.

Lemma rnd_nonneg (x : R) : (0 <= x)%R -> (0 <= rnd x)%R.
Proof. intros Hx. rewrite <- rnd_0. now apply rnd_monotone. Qed.

Lemma rnd_between_1_2 (x : R) : (1 <= x <= 2)%R -> (1 <= rnd x <= 2)%R.
Proof.
  intros [H1 H2]. split.
  - rewrite <- rnd_1. now apply rnd_monotone.
  - rewrite <- rnd_2. now apply rnd_monotone.
Qed.

Lemma rnd_between_half_1 (x : R) :
  (1 / 2 <= x <= 1)%R -> (1 / 2 <= rnd x <= 1)%R.
Proof.
  intros [H1 H2]. split.
  - rewrite <- rnd_half. now apply rnd_monotone.
  - rewrite <- rnd_1. now apply rnd_monotone.
Qed.

Lemma inv_between (d : R) : (1 <= d <= 2)%R -> (1 / 2 <= 1 / d <= 1)%R.
Proof.
  intros [H1 H2].
  assert (Hd : (0 < d)%R) by lra.
  split.
  - apply (Rmult_le_reg_r d); [exact Hd|]. field_simplify; lra.
  - apply (Rmult_le_reg_r d); [exact Hd|]. field_simplify; lra.
Qed.

(** The threshold is the rounded quotient of 1 by a number between 1 and 2. *)
Lemma normalized_delta_range (skill_1 skill_2 : R) :
  (1 / 2 <= normalized_delta skill_1 skill_2 <= 1)%R.
Proof.
  unfold normalized_delta, fdiv, fadd. rewrite of_int_1.
  apply rnd_between_half_1, inv_between, rnd_between_1_2.
  pose proof (pow_e_nonpos (- Rabs (fsub skill_1 skill_2))) as Hp.
  pose proof (Rabs_pos (fsub skill_1 skill_2)) as Ha.
  assert (Hn : (- Rabs (fsub skill_1 skill_2) <= 0)%R) by lra.
  specialize (Hp Hn). lra.
Qed.

End FloatFacts.

(** * The instance without rounding error *)

Lemma Int_part_bounds (t : R) : (IZR (Int_part t) <= t < IZR (Int_part t) + 1)%R.
Proof. destruct (base_Int_part t) as [H1 H2]. split; lra. Qed.

Lemma Int_part_monotone (x y : R) : (x <= y)%R -> Int_part x <= Int_part y.
Proof.
  intros Hxy.
  pose proof (Int_part_bounds x) as [Hx _].
  pose proof (Int_part_bounds y) as [_ Hy].
  assert (H : (IZR (Int_part x) < IZR (Int_part y + 1))%R).
  { rewrite plus_IZR. lra. }
  apply lt_IZR in H. lia.
Qed.

Lemma nearest_even_monotone (x y : R) :
  (x <= y)%R -> nearest_even x <= nearest_even y.
Proof.
  intros Hxy.
  pose proof (Int_part_monotone x y Hxy) as Hf.
  unfold nearest_even.
  destruct (Z.eq_dec (Int_part x) (Int_part y)) as [E | NE].
  - rewrite E.
    destruct (Rlt_dec (x - IZR (Int_part y)) (1 / 2)) as [a | a];
      destruct (Rlt_dec (1 / 2) (x - IZR (Int_part y))) as [b | b];
      destruct (Rlt_dec (y - IZR (Int_part y)) (1 / 2)) as [c | c];
      destruct (Rlt_dec (1 / 2) (y - IZR (Int_part y))) as [d | d];
      destruct (Z.even (Int_part y)); try lia; exfalso; lra.
  - destruct (Rlt_dec (x - IZR (Int_part x)) (1 / 2));
      destruct (Rlt_dec (1 / 2) (x - IZR (Int_part x)));
      destruct (Rlt_dec (y - IZR (Int_part y)) (1 / 2));
      destruct (Rlt_dec (1 / 2) (y - IZR (Int_part y)));
      destruct (Z.even (Int_part x)); destruct (Z.even (Int_part y)); lia.
Qed.

Lemma round1_exact_monotone (x y : R) :
  (x <= y)%R -> (round1_exact x <= round1_exact y)%R.
Proof.
  intros Hxy. unfold round1_exact.
  assert (H : nearest_even (x * 10) <= nearest_even (y * 10)).
  { apply nearest_even_monotone. lra. }
  apply IZR_le in H. lra.
Qed.

Lemma exp_nonpos (x : R) : (x <= 0)%R -> (0 <= exp x <= 1)%R.
Proof.
  intros Hx. pose proof (exp_pos x) as Hp. split; [lra|].
  destruct Hx as [Hlt | ->].
  - apply exp_increasing in Hlt. rewrite exp_0 in Hlt. lra.
  - rewrite exp_0. lra.
Qed.

Definition Exact : Binary64 := {|
  rnd := fun x => x;
  rnd_monotone := fun x y H => H;
  rnd_0 := eq_refl;
  rnd_half := eq_refl;
  rnd_1 := eq_refl;
  rnd_2 := eq_refl;
  pow_e := exp;
  pow_e_0 := exp_0;
  pow_e_nonpos := exp_nonpos;
  round1 := round1_exact;
  round1_monotone := round1_exact_monotone;
  fstr := fun _ => "<float>"
|}.

(** * A float model that rounds next to 1 *)















(** * Weight classes *)

(** C5: [get_weight_class] gives HEAVYWEIGHT from 203 pounds up,
    MIDDLEWEIGHT on 166..202, LIGHTWEIGHT on 133..165, FEATHERWEIGHT on
    125..132 and raises the weight error below 125; the boundary weights 125,
    133, 166 and 203 fall in the class that starts there and 124, 132, 165
    and 202 one class lower. *)
Theorem get_weight_class_table (w : Z) :
  (203 <= w -> get_weight_class w = Ok "HEAVYWEIGHT") /\
  (166 <= w <= 202 -> get_weight_class w = Ok "MIDDLEWEIGHT") /\
  (133 <= w <= 165 -> get_weight_class w = Ok "LIGHTWEIGHT") /\
  (125 <= w <= 132 -> get_weight_class w = Ok "FEATHERWEIGHT") /\
  (w < 125 -> get_weight_class w = Raise (InvalidAttribute w)) /\
  get_weight_class 203 = Ok "HEAVYWEIGHT" /\
  get_weight_class 202 = Ok "MIDDLEWEIGHT" /\
  get_weight_class 166 = Ok "MIDDLEWEIGHT" /\
  get_weight_class 165 = Ok "LIGHTWEIGHT" /\
  get_weight_class 133 = Ok "LIGHTWEIGHT" /\
  get_weight_class 132 = Ok "FEATHERWEIGHT" /\
  get_weight_class 125 = Ok "FEATHERWEIGHT" /\
  get_weight_class 124 =
    Raise (ValueError "Invalid weight: 124. Weight must be at least 125.").
Proof.
  unfold get_weight_class.
  repeat split; try reflexivity; intros H;
    destruct (Z.geb_spec w 203); try lia;
    destruct (Z.geb_spec w 166); try lia;
    destruct (Z.geb_spec w 133); try lia;
    destruct (Z.geb_spec w 125); try lia; reflexivity.
Qed.

Lemma get_weight_class_table_witness :
  get_weight_class 220 = Ok "HEAVYWEIGHT" /\
  get_weight_class 180 = Ok "MIDDLEWEIGHT" /\
  get_weight_class 150 = Ok "LIGHTWEIGHT" /\
  get_weight_class 130 = Ok "FEATHERWEIGHT" /\
  get_weight_class 120 = Raise (InvalidAttribute 120).
Proof.
  split; [apply (get_weight_class_table 220); lia|].
  split; [apply (get_weight_class_table 180); lia|].
  split; [apply (get_weight_class_table 150); lia|].
  split; [apply (get_weight_class_table 130); lia|].
  apply (get_weight_class_table 120); lia.
Defined.

(** The two sample boxers as the constructor builds them. *)
Example tyson_init : Boxer_init 1 "Mike Tyson" 220 178 71 25 = Ok tyson.
Proof. reflexivity. Qed.

Example ali_init : Boxer_init 2 "Muhammad Ali" 215 191 78 30 = Ok ali.
Proof. reflexivity. Qed.

(** * Fighting skill *)



(** * Statistics of a boxer *)

Lemma filter_has_id_nil (boxer_id : Z) (t : list row) :
  filter (has_id boxer_id) t = [] <->
  (forall r, In r t -> row_id r <> boxer_id).
Proof.
  split.
  - intros Hnil r Hin Heq.
    assert (Hf : In r (filter (has_id boxer_id) t)).
    { apply filter_In. split; [exact Hin|]. unfold has_id. now apply Z.eqb_eq. }
    rewrite Hnil in Hf. exact Hf.
  - intros Hno. destruct (filter (has_id boxer_id) t) as [|r l] eqn:E; [reflexivity|].
    assert (Hf : In r (filter (has_id boxer_id) t)) by (rewrite E; now left).
    apply filter_In in Hf. destruct Hf as [Hin Hid].
    unfold has_id in Hid. apply Z.eqb_eq in Hid. now apply Hno in Hin.
Qed.

Lemma stats_updated_eq (boxer_id : Z) (result : string) (t : list row) :
  stats_updated boxer_id result t =
  map (fun r => if has_id boxer_id r
                then (if (result =? "win")%string then set_win r else set_loss r)
                else r) t.
Proof.
  unfold stats_updated. apply map_ext. intros r.
  unfold has_id, set_win, set_loss.
  destruct (row_id r =? boxer_id); [|reflexivity].
  destruct (result =? "win")%string; [reflexivity|].
  now rewrite Z.add_0_r.
Qed.

(** What [update_boxer_stats] does on each of its three paths. *)
Lemma update_boxer_stats_run (s : State) (boxer_id : Z) (result : string) :
  let logged := mkState (ring s) (boxers s) (random_org s) (requests s)
                        (calls s ++ [CallUpdateBoxerStats boxer_id result]) in
  update_boxer_stats boxer_id result s =
    if negb (existsb (String.eqb result) ["win"; "loss"]) then
      (Raise (InvalidResult result), logged)
    else
      match filter (has_id boxer_id) (boxers s) with
      | [] => (Raise (NotFound boxer_id), logged)
      | _ :: _ =>
          (Ok tt,
           mkState (ring s) (stats_updated boxer_id result (boxers s))
                   (random_org s) (requests s)
                   (calls s ++ [CallUpdateBoxerStats boxer_id result]))
      end.
Proof.
  rewrite stats_updated_eq.
  cbv [update_boxer_stats bind called select_where update_where set_boxers
       get ret raise].
  destruct (negb (existsb (String.eqb result) ["win"; "loss"]));
    [reflexivity|].
  cbn [boxers ring random_org requests calls].
  destruct (filter (has_id boxer_id) (boxers s)); [reflexivity|].
  destruct (result =? "win")%string; reflexivity.
Qed.

Lemma result_accepted (result : string) :
  result = "win" \/ result = "loss" ->
  negb (existsb (String.eqb result) ["win"; "loss"]) = false.
Proof. intros [-> | ->]; reflexivity. Qed.

Lemma result_refused (result : string) :
  result <> "win" -> result <> "loss" ->
  negb (existsb (String.eqb result) ["win"; "loss"]) = true.
Proof.
  intros Hw Hl. cbn [existsb].
  destruct (String.eqb_spec result "win"); [contradiction|].
  destruct (String.eqb_spec result "loss"); [contradiction|]. reflexivity.
Qed.

Lemma filter_has_id_cons (boxer_id : Z) (t : list row) :
  (exists r, In r t /\ row_id r = boxer_id) ->
  exists r l, filter (has_id boxer_id) t = r :: l.
Proof.
  intros [r [Hin Hid]].
  destruct (filter (has_id boxer_id) t) as [|r' l] eqn:E.
  - rewrite filter_has_id_nil in E. now apply E in Hin.
  - now exists r', l.
Qed.

(** C7: [update_boxer_stats] raises the invalid-result error, with the
    table untouched, when the result is neither 'win' nor 'loss'; raises the
    not-found error when no row has the id; and otherwise adds one to
    [fights], and one to [wins] exactly when the result is 'win', in the rows
    with that id, every other column and every other row staying as it was. *)
Theorem update_boxer_stats_spec (s : State) (boxer_id : Z) (result : string) :
  let out := update_boxer_stats boxer_id result s in
  (result <> "win" -> result <> "loss" ->
     fst out = Raise (InvalidResult result) /\
     InvalidArgument (InvalidResult result) /\
     boxers (snd out) = boxers s) /\
  (result = "win" \/ result = "loss" ->
   (forall r, In r (boxers s) -> row_id r <> boxer_id) ->
     fst out = Raise (NotFound boxer_id) /\
     boxers (snd out) = boxers s) /\
  (result = "win" \/ result = "loss" ->
   (exists r, In r (boxers s) /\ row_id r = boxer_id) ->
     fst out = Ok tt /\
     boxers (snd out) =
       map (fun r =>
              if row_id r =? boxer_id then
                mkRow (row_id r) (row_name r) (row_weight r) (row_height r)
                      (row_reach r) (row_age r) (row_fights r + 1)
                      (row_wins r + (if (result =? "win")%string then 1 else 0))
              else r) (boxers s)) /\
  ring (snd out) = ring s /\
  random_org (snd out) = random_org s /\
  requests (snd out) = requests s.
Proof.
  intros out. subst out. rewrite update_boxer_stats_run.
  split; [|split; [|split; [|split; [|split]]]].
  - intros Hw Hl. rewrite (result_refused result Hw Hl).
    split; [reflexivity|]. split; [|reflexivity]. left. now exists result.
  - intros Hres Hno. rewrite (result_accepted result Hres).
    apply filter_has_id_nil in Hno. rewrite Hno. split; reflexivity.
  - intros Hres Hsome. rewrite (result_accepted result Hres).
    destruct (filter_has_id_cons boxer_id (boxers s) Hsome) as [r [l E]].
    rewrite E. split; reflexivity.
  - destruct (negb _); [reflexivity|]. destruct (filter _ _); reflexivity.
  - destruct (negb _); [reflexivity|]. destruct (filter _ _); reflexivity.
  - destruct (negb _); [reflexivity|]. destruct (filter _ _); reflexivity.
Qed.

Lemma update_boxer_stats_spec_witness :
  let tyson := mkRow 1 "Mike Tyson" 220 178 71 25 0 0 in
  let ali := mkRow 2 "Muhammad Ali" 215 191 78 30 0 0 in
  let s := mkState [] [tyson; ali] (fun _ => TimedOut) 0 [] in
  fst (update_boxer_stats 1 "win" s) = Ok tt /\
  boxers (snd (update_boxer_stats 1 "win" s)) =
    [mkRow 1 "Mike Tyson" 220 178 71 25 1 1; ali].
Proof.
  intros tyson ali s.
  destruct (update_boxer_stats_spec s 1 "win") as [_ [_ [H _]]].
  apply H.
  - now left.
  - exists tyson. split; [now left | reflexivity].
Defined.

(** * The fight *)

Lemma get_random_run (s : State) :
  get_random s =
    match random_org s (requests s) with
    | TimedOut => (Raise RandomTimeout, after_draw s)
    | Failed why => (Raise (RandomUnavailable why), after_draw s)
    | Text text (Some random_number) => (Ok random_number, after_draw s)
    | Text text None => (Raise (MalformedResponse text), after_draw s)
    end.
Proof.
  cbv [get_random bind called next_request ret raise after_draw].
  cbn [ring boxers random_org requests calls].
  destruct (random_org s (requests s)) as [| why | text [x|]]; reflexivity.
Qed.

Lemma filter_has_id_stats_updated (i j : Z) (result : string) (t : list row) :
  filter (has_id i) (stats_updated j result t) = [] <->
  filter (has_id i) t = [].
Proof.
  rewrite !filter_has_id_nil. unfold stats_updated. split.
  - intros H r Hin.
    specialize (H _ (in_map _ _ _ Hin)). cbv beta in H.
    destruct (row_id r =? j); exact H.
  - intros H r' Hin. apply in_map_iff in Hin. destruct Hin as [r [<- Hin]].
    specialize (H r Hin). destruct (row_id r =? j); exact H.
Qed.

Lemma settle_run (winner loser : Boxer) (s : State) :
  ring s <> [] ->
  settle winner loser s =
    let win := CallUpdateBoxerStats (id winner) "win" in
    let loss := CallUpdateBoxerStats (id loser) "loss" in
    let won := stats_updated (id winner) "win" (boxers s) in
    match filter (has_id (id winner)) (boxers s) with
    | [] =>
        (Raise (NotFound (id winner)),
         mkState (ring s) (boxers s) (random_org s) (requests s)
                 (calls s ++ [win]))
    | _ :: _ =>
        match filter (has_id (id loser)) (boxers s) with
        | [] =>
            (Raise (NotFound (id loser)),
             mkState (ring s) won (random_org s) (requests s)
                     (calls s ++ [win; loss]))
        | _ :: _ =>
            (Ok (name winner),
             mkState [] (stats_updated (id loser) "loss" won)
                     (random_org s) (requests s) (calls s ++ [win; loss]))
        end
    end.
Proof.
  intros Hring. cbv zeta. unfold settle, bind.
  rewrite update_boxer_stats_run. cbn [existsb String.eqb Ascii.eqb Bool.eqb negb orb].
  destruct (filter (has_id (id winner)) (boxers s)) as [|r0 l0]; [reflexivity|].
  rewrite update_boxer_stats_run. cbn [existsb String.eqb Ascii.eqb Bool.eqb negb orb].
  cbn [ring boxers random_org requests calls].
  destruct (filter (has_id (id loser)) (stats_updated (id winner) "win" (boxers s)))
    as [|r1 l1] eqn:E.
  - apply filter_has_id_stats_updated in E. rewrite E.
    rewrite <- app_assoc. reflexivity.
  - destruct (filter (has_id (id loser)) (boxers s)) as [|r2 l2] eqn:E2.
    + apply (filter_has_id_stats_updated (id loser) (id winner) "win") in E2.
      rewrite E2 in E. discriminate.
    + cbv [clear_ring bind get ret set_ring].
      cbn [ring boxers random_org requests calls].
      destruct (ring s); [contradiction|].
      rewrite <- app_assoc. reflexivity.
Qed.

Section Fight.
Context {F : Binary64}.

Lemma fight_short (s : State) :
  (List.length (ring s) < 2)%nat -> fight s = (Raise InsufficientOccupants, s).
Proof.
  intros H. cbv [fight bind get raise].
  apply Nat.ltb_lt in H. rewrite H. reflexivity.
Qed.

Lemma fight_crowded (s : State) :
  (2 < List.length (ring s))%nat -> fight s = (Raise TooManyValues, s).
Proof.
  intros H. cbv [fight bind get get_boxers ret raise].
  destruct (Nat.ltb_spec (List.length (ring s)) 2) as [Hlt | _]; [lia|].
  destruct (ring s) as [|b1 [|b2 [|b3 l]]]; cbn in H; try lia. reflexivity.
Qed.

(** With two boxers in the ring, [fight] asks for the random number and
    settles the fight for one of them. *)
Lemma fight_draw (s : State) (boxer_1 boxer_2 : Boxer) :
  ring s = [boxer_1; boxer_2] ->
  fight s =
    match get_random s with
    | (Ok random_number, s') =>
        if Rlt_dec random_number
             (normalized_delta (get_fighting_skill boxer_1)
                               (get_fighting_skill boxer_2))
        then settle boxer_1 boxer_2 s'
        else settle boxer_2 boxer_1 s'
    | (Raise e, s') => (Raise e, s')
    end.
Proof.
  intros H. cbv [fight bind get get_boxers ret raise]. rewrite H.
  cbn [List.length Nat.ltb Nat.leb]. rewrite H.
  destruct (get_random s) as [[random_number | e] s']; [|reflexivity].
  destruct (Rlt_dec random_number _); reflexivity.
Qed.

(** A fight either leaves the ring as it is or empties it. *)
Lemma fight_ring (s : State) :
  ring (snd (fight s)) = ring s \/ ring (snd (fight s)) = [].
Proof.
  destruct (ring s) as [|b1 [|b2 [|b3 l]]] eqn:E.
  - rewrite fight_short by (rewrite E; cbn; lia). left. exact E.
  - rewrite fight_short by (rewrite E; cbn; lia). left. exact E.
  - rewrite (fight_draw s b1 b2 E), get_random_run.
    assert (Hne : ring (after_draw s) <> []) by (cbn; rewrite E; discriminate).
    assert (Hs : forall w l,
               ring (snd (settle w l (after_draw s))) = ring s \/
               ring (snd (settle w l (after_draw s))) = []).
    { intros w l. rewrite (settle_run w l _ Hne). cbv zeta.
      destruct (filter (has_id (id w)) (boxers (after_draw s))); [now left|].
      destruct (filter (has_id (id l)) (boxers (after_draw s)));
        [now left | now right]. }
    rewrite <- E.
    destruct (random_org s (requests s)) as [| why | text [x|]];
      try (now left).
    destruct (Rlt_dec x _); apply Hs.
  - rewrite fight_crowded by (rewrite E; cbn; lia). left. exact E.
Qed.
End Fight.

(** * Fights that cannot start *)

(** C4: with fewer than two boxers in the ring, [fight] raises the
    two-boxers error and the state is the one before the call: same ring,
    same table, no request to random.org and no collaborator call logged. *)
Theorem fight_insufficient_occupants {F : Binary64} (s : State) :
  (List.length (ring s) < 2)%nat ->
  fst (fight s) = Raise InsufficientOccupants /\
  snd (fight s) = s /\
  ring (snd (fight s)) = ring s /\
  boxers (snd (fight s)) = boxers s /\
  requests (snd (fight s)) = requests s /\
  calls (snd (fight s)) = calls s.
Proof.
  intros H. rewrite (fight_short s H). cbn [fst snd]. repeat split.
Qed.

Lemma fight_insufficient_occupants_witness :
  let s := mkState [tyson] [tyson_row; ali_row] always_tenth 0 [] in
  fst (@fight Exact s) = Raise InsufficientOccupants /\
  snd (@fight Exact s) = s /\
  ring (snd (@fight Exact s)) = ring s /\
  boxers (snd (@fight Exact s)) = boxers s /\
  requests (snd (@fight Exact s)) = requests s /\
  calls (snd (@fight Exact s)) = calls s.
Proof.
  intros s. apply (@fight_insufficient_occupants Exact s). cbn. lia.
Defined.

(** * Capacity of the ring *)

Lemma enter_ring_full (b : Boxer) (s : State) :
  (2 <= List.length (ring s))%nat ->
  enter_ring (ABoxer b) s = (Raise RingFull, s).
Proof.
  intros H. cbv [enter_ring bind get raise].
  apply Nat.leb_le in H. rewrite H. reflexivity.
Qed.

Lemma enter_ring_free (b : Boxer) (s : State) :
  (List.length (ring s) < 2)%nat ->
  enter_ring (ABoxer b) s =
    (Ok tt, mkState (ring s ++ [b]) (boxers s) (random_org s) (requests s)
                    (calls s)).
Proof.
  intros H. cbv [enter_ring bind get raise set_ring].
  destruct (Nat.leb_spec 2 (List.length (ring s))); [lia | reflexivity].
Qed.

Lemma enter_ring_not_boxer (o : object) (s : State) :
  (forall b, o <> ABoxer b) ->
  enter_ring o s = (Raise (TypeMismatch (type_name o)), s).
Proof.
  intros H. destruct o as [b | n | t | x |]; try reflexivity.
  now contradiction (H b).
Qed.

Lemma state_after_capacity {F : Binary64} (op : operation) (s : State) :
  (List.length (ring s) <= 2)%nat ->
  (List.length (ring (state_after op s)) <= 2)%nat.
Proof.
  intros H. destruct op as [o | | |]; cbn [state_after].
  - destruct o as [b | n | t | x |]; try exact H.
    destruct (Nat.leb_spec 2 (List.length (ring s))) as [Hfull | Hfree].
    + rewrite enter_ring_full by exact Hfull. exact H.
    + rewrite enter_ring_free by exact Hfree. cbn [snd ring].
      rewrite length_app. cbn. lia.
  - destruct (fight_ring s) as [-> | ->]; [exact H | cbn; lia].
  - cbv [clear_ring bind get ret set_ring].
    destruct (ring s) eqn:E; cbn; [rewrite E; cbn|]; lia.
  - exact H.
Qed.

(** C9: the ring never holds more than two boxers.  Each operation
    ([enter_ring], [fight], [clear_ring], [get_boxers]) leaves at most two
    boxers in a ring that held at most two, so any sequence of operations on
    a new ring does;
    [enter_ring] of a boxer into a ring of two raises the ring-full error and
    [enter_ring] of anything that is not a [Boxer] raises the type error, the
    state staying the same in both cases. *)
Theorem ring_never_exceeds_two {F : Binary64} :
  (forall (op : operation) (s : State),
      (List.length (ring s) <= 2)%nat ->
      (List.length (ring (state_after op s)) <= 2)%nat) /\
  (forall (ops : list operation) (s : State),
      ring s = [] ->
      (List.length (ring (fold_left (fun s op => state_after op s) ops s)) <= 2)%nat) /\
  (forall (b : Boxer) (s : State),
      List.length (ring s) = 2%nat ->
      enter_ring (ABoxer b) s = (Raise RingFull, s)) /\
  (forall (o : object) (s : State),
      (forall b, o <> ABoxer b) ->
      enter_ring o s = (Raise (TypeMismatch (type_name o)), s)) /\
  (forall s : State, get_boxers s = (Ok (ring s), s)).
Proof.
  split; [exact state_after_capacity|].
  split.
  { intros ops s Hs.
    assert (H : (List.length (ring s) <= 2)%nat) by (rewrite Hs; cbn; lia).
    clear Hs. revert s H.
    induction ops as [|op ops IH]; intros s H; cbn [fold_left]; [exact H|].
    apply IH. now apply state_after_capacity. }
  split.
  { intros b s H. apply enter_ring_full. lia. }
  split; [exact enter_ring_not_boxer|].
  reflexivity.
Qed.

Lemma ring_never_exceeds_two_witness :
  let s := mkState [tyson; ali] [tyson_row; ali_row] always_tenth 0 [] in
  enter_ring (ABoxer tyson) s = (Raise RingFull, s) /\
  enter_ring (AnInt 1) s =
    (Raise (TypeError "Invalid type: Expected 'Boxer', got 'int'"), s) /\
  (List.length
     (ring (fold_left (fun s op => @state_after Exact op s)
                      [Enter (ABoxer tyson); Enter (ABoxer ali);
                       Enter (ABoxer tyson); GetBoxers; Clear;
                       Enter (ABoxer ali)]
                      (mkState [] [] always_tenth 0 []))) <= 2)%nat.
Proof.
  intros s.
  destruct (@ring_never_exceeds_two Exact) as [_ [Hseq [Hfull [Htype _]]]].
  split; [apply Hfull; reflexivity|].
  split; [apply (Htype (AnInt 1)); intros b; discriminate|].
  apply Hseq. reflexivity.
Defined.

(** * Fights that take place *)

Lemma fight_with_draw {F : Binary64} (s : State) (boxer_1 boxer_2 : Boxer)
    (text : string) (random_number : R) :
  ring s = [boxer_1; boxer_2] ->
  random_org s (requests s) = Text text (Some random_number) ->
  fight s =
    if Rlt_dec random_number
         (normalized_delta (get_fighting_skill boxer_1)
                           (get_fighting_skill boxer_2))
    then settle boxer_1 boxer_2 (after_draw s)
    else settle boxer_2 boxer_1 (after_draw s).
Proof.
  intros Hring Hdraw.
  rewrite (fight_draw s boxer_1 boxer_2 Hring), get_random_run, Hdraw.
  reflexivity.
Qed.

Lemma after_draw_ring (s : State) (boxer_1 boxer_2 : Boxer) :
  ring s = [boxer_1; boxer_2] -> ring (after_draw s) <> [].
Proof. intros H. cbn. rewrite H. discriminate. Qed.

(** A fight whose two updates find their rows. *)
Lemma settle_both_found (winner loser : Boxer) (s : State) :
  ring s <> [] ->
  (exists r, In r (boxers s) /\ row_id r = id winner) ->
  (exists r, In r (boxers s) /\ row_id r = id loser) ->
  settle winner loser (after_draw s) =
    (Ok (name winner),
     mkState [] (stats_updated (id loser) "loss"
                   (stats_updated (id winner) "win" (boxers s)))
             (random_org s) (S (requests s))
             (calls s ++ [CallGetRandom;
                          CallUpdateBoxerStats (id winner) "win";
                          CallUpdateBoxerStats (id loser) "loss"])).
Proof.
  intros Hring Hw Hl. rewrite settle_run by exact Hring. cbv zeta.
  cbn [after_draw ring boxers random_org requests calls].
  destruct (filter_has_id_cons _ _ Hw) as [r1 [l1 ->]].
  destruct (filter_has_id_cons _ _ Hl) as [r2 [l2 ->]].
  rewrite <- app_assoc. reflexivity.
Qed.

(** C1, amended: with two boxers in the ring, a random number [r] from
    random.org and a row in the table for each of the two ids, [fight] picks
    boxer 1 when [r] is below the threshold and boxer 2 otherwise, calls
    [update_boxer_stats] once for the winner with 'win' and then once for the
    loser with 'loss', empties the ring and returns the winner's name. *)
Theorem fight_settles_for_stored_boxers {F : Binary64} (s : State)
    (boxer_1 boxer_2 : Boxer) (text : string) (r : R) :
  ring s = [boxer_1; boxer_2] ->
  random_org s (requests s) = Text text (Some r) ->
  (exists row_1, In row_1 (boxers s) /\ row_id row_1 = id boxer_1) ->
  (exists row_2, In row_2 (boxers s) /\ row_id row_2 = id boxer_2) ->
  let threshold :=
    normalized_delta (get_fighting_skill boxer_1) (get_fighting_skill boxer_2) in
  exists winner loser : Boxer,
    ((r < threshold)%R /\ winner = boxer_1 /\ loser = boxer_2 \/
     (threshold <= r)%R /\ winner = boxer_2 /\ loser = boxer_1) /\
    fst (fight s) = Ok (name winner) /\
    ring (snd (fight s)) = [] /\
    calls (snd (fight s)) =
      calls s ++ [CallGetRandom;
                  CallUpdateBoxerStats (id winner) "win";
                  CallUpdateBoxerStats (id loser) "loss"] /\
    boxers (snd (fight s)) =
      stats_updated (id loser) "loss"
        (stats_updated (id winner) "win" (boxers s)).
Proof.
  intros Hring Hdraw H1 H2 threshold.
  assert (Hne : ring s <> []) by (rewrite Hring; discriminate).
  rewrite (fight_with_draw s boxer_1 boxer_2 text r Hring Hdraw).
  fold threshold. destruct (Rlt_dec r threshold) as [Hlt | Hge].
  - exists boxer_1, boxer_2. rewrite (settle_both_found _ _ s Hne H1 H2).
    split; [left; auto|]. repeat split.
  - exists boxer_2, boxer_1. rewrite (settle_both_found _ _ s Hne H2 H1).
    split; [right; split; [now apply Rnot_lt_le | auto]|]. repeat split.
Qed.

Lemma below_half_below_threshold {F : Binary64} (r skill_1 skill_2 : R) :
  (r < 1 / 2)%R -> (r < normalized_delta skill_1 skill_2)%R.
Proof.
  intros H. pose proof (normalized_delta_range skill_1 skill_2). lra.
Qed.

Lemma fight_settles_for_stored_boxers_witness :
  let s := mkState [tyson; ali] [tyson_row; ali_row] always_tenth 0 [] in
  exists winner loser : Boxer,
    ((1 / 10 < @normalized_delta Exact (@get_fighting_skill Exact tyson)
                                       (@get_fighting_skill Exact ali))%R /\
     winner = tyson /\ loser = ali \/
     (@normalized_delta Exact (@get_fighting_skill Exact tyson)
                              (@get_fighting_skill Exact ali) <= 1 / 10)%R /\
     winner = ali /\ loser = tyson) /\
    fst (@fight Exact s) = Ok (name winner) /\
    ring (snd (@fight Exact s)) = [] /\
    calls (snd (@fight Exact s)) =
      calls s ++ [CallGetRandom;
                  CallUpdateBoxerStats (id winner) "win";
                  CallUpdateBoxerStats (id loser) "loss"] /\
    boxers (snd (@fight Exact s)) =
      stats_updated (id loser) "loss"
        (stats_updated (id winner) "win" (boxers s)).
Proof.
  intros s.
  apply (@fight_settles_for_stored_boxers Exact s tyson ali "0.10" (1 / 10)%R).
  - reflexivity.
  - reflexivity.
  - exists tyson_row. split; [now left | reflexivity].
  - exists ali_row. split; [right; now left | reflexivity].
Defined.

(** C1 as stated fails: two boxers that have no row in the table are in
    the ring and random.org answers 0.10; [fight] raises the not-found error
    of the first update, the loser's update is never made and the ring still
    holds both boxers. *)
Lemma fight_without_rows_raises :
  let s := mkState [tyson; ali] [] always_tenth 0 [] in
  ring s = [tyson; ali] /\
  random_org s (requests s) = Text "0.10" (Some (1 / 10)%R) /\
  fst (@fight Exact s) = Raise (NotFound 1) /\
  ring (snd (@fight Exact s)) = [tyson; ali] /\
  calls (snd (@fight Exact s)) = [CallGetRandom; CallUpdateBoxerStats 1 "win"].
Proof.
  intros s. split; [reflexivity|]. split; [reflexivity|].
  rewrite (@fight_with_draw Exact s tyson ali "0.10" (1 / 10)%R)
    by reflexivity.
  destruct (Rlt_dec _ _) as [Hlt | Hge].
  - rewrite settle_run by (cbn; discriminate). repeat split.
  - exfalso. apply Hge. apply below_half_below_threshold. lra.
Qed.

(** * Fights whose update fails *)

Lemma update_boxer_stats_ring (boxer_id : Z) (result : string) (s : State) :
  ring (snd (update_boxer_stats boxer_id result s)) = ring s.
Proof.
  rewrite update_boxer_stats_run.
  destruct (negb _); [reflexivity|]. destruct (filter _ _); reflexivity.
Qed.

Lemma update_boxer_stats_raised (boxer_id : Z) (result : string) (s : State)
    (e : exn) :
  fst (update_boxer_stats boxer_id result s) = Raise e ->
  boxers (snd (update_boxer_stats boxer_id result s)) = boxers s.
Proof.
  rewrite update_boxer_stats_run.
  destruct (negb _); [reflexivity|].
  destruct (filter _ _); [reflexivity | discriminate].
Qed.

Lemma update_boxer_stats_returned (boxer_id : Z) (result : string) (s : State) :
  fst (update_boxer_stats boxer_id result s) = Ok tt ->
  boxers (snd (update_boxer_stats boxer_id result s)) =
    stats_updated boxer_id result (boxers s).
Proof.
  rewrite update_boxer_stats_run.
  destruct (negb _); [discriminate|].
  destruct (filter _ _); [discriminate | reflexivity].
Qed.

Lemma settle_first_update_raises (winner loser : Boxer) (s : State) (e : exn) :
  fst (update_boxer_stats (id winner) "win" s) = Raise e ->
  fst (settle winner loser s) = Raise e /\
  ring (snd (settle winner loser s)) = ring s /\
  boxers (snd (settle winner loser s)) = boxers s.
Proof.
  intros H.
  pose proof (update_boxer_stats_ring (id winner) "win" s) as Hr.
  pose proof (update_boxer_stats_raised (id winner) "win" s e H) as Hb.
  unfold settle, bind.
  destruct (update_boxer_stats (id winner) "win" s) as [[u | e1] s1];
    cbn [fst snd] in *; [discriminate|].
  injection H as ->. split; [reflexivity | split; [exact Hr | exact Hb]].
Qed.

Lemma settle_second_update_raises (winner loser : Boxer) (s : State) (e : exn) :
  fst (update_boxer_stats (id winner) "win" s) = Ok tt ->
  fst (update_boxer_stats (id loser) "loss"
         (snd (update_boxer_stats (id winner) "win" s))) = Raise e ->
  fst (settle winner loser s) = Raise e /\
  ring (snd (settle winner loser s)) = ring s /\
  boxers (snd (settle winner loser s)) =
    stats_updated (id winner) "win" (boxers s).
Proof.
  intros H1 H2.
  pose proof (update_boxer_stats_ring (id winner) "win" s) as Hr1.
  pose proof (update_boxer_stats_returned (id winner) "win" s H1) as Hb1.
  unfold settle, bind.
  destruct (update_boxer_stats (id winner) "win" s) as [[u | e1] s1];
    cbn [fst snd] in *; [|discriminate].
  pose proof (update_boxer_stats_ring (id loser) "loss" s1) as Hr2.
  pose proof (update_boxer_stats_raised (id loser) "loss" s1 e H2) as Hb2.
  destruct (update_boxer_stats (id loser) "loss" s1) as [[u2 | e2] s2];
    cbn [fst snd] in *; [discriminate|].
  injection H2 as ->. rewrite Hr2, Hr1, Hb2, Hb1. repeat split.
Qed.

(** C3: two boxers are in the ring and the winner has been chosen from
    the random number.  If the winner's update raises, [fight] raises the
    same exception, the ring still holds both boxers and the table is as it
    was.  If the winner's update returns and the loser's update raises,
    [fight] raises that exception, the ring still holds both boxers, and the
    table already has the winner's counters incremented. *)
Theorem fight_failed_update_keeps_ring {F : Binary64} (s : State)
    (boxer_1 boxer_2 : Boxer) (text : string) (r : R) :
  ring s = [boxer_1; boxer_2] ->
  random_org s (requests s) = Text text (Some r) ->
  let threshold :=
    normalized_delta (get_fighting_skill boxer_1) (get_fighting_skill boxer_2) in
  exists winner loser : Boxer,
    ((r < threshold)%R /\ winner = boxer_1 /\ loser = boxer_2 \/
     (threshold <= r)%R /\ winner = boxer_2 /\ loser = boxer_1) /\
    (forall e : exn,
        fst (update_boxer_stats (id winner) "win" (after_draw s)) = Raise e ->
        fst (fight s) = Raise e /\
        ring (snd (fight s)) = [boxer_1; boxer_2] /\
        boxers (snd (fight s)) = boxers s) /\
    (forall e : exn,
        fst (update_boxer_stats (id winner) "win" (after_draw s)) = Ok tt ->
        fst (update_boxer_stats (id loser) "loss"
               (snd (update_boxer_stats (id winner) "win" (after_draw s))))
          = Raise e ->
        fst (fight s) = Raise e /\
        ring (snd (fight s)) = [boxer_1; boxer_2] /\
        boxers (snd (fight s)) = stats_updated (id winner) "win" (boxers s)).
Proof.
  intros Hring Hdraw threshold.
  rewrite (fight_with_draw s boxer_1 boxer_2 text r Hring Hdraw).
  fold threshold. rewrite <- Hring.
  destruct (Rlt_dec r threshold) as [Hlt | Hge].
  - exists boxer_1, boxer_2. split; [left; auto|]. split.
    + intros e H.
      exact (settle_first_update_raises boxer_1 boxer_2 (after_draw s) e H).
    + intros e H1 H2.
      exact (settle_second_update_raises boxer_1 boxer_2 (after_draw s) e H1 H2).
  - exists boxer_2, boxer_1.
    split; [right; split; [now apply Rnot_lt_le | auto]|]. split.
    + intros e H.
      exact (settle_first_update_raises boxer_2 boxer_1 (after_draw s) e H).
    + intros e H1 H2.
      exact (settle_second_update_raises boxer_2 boxer_1 (after_draw s) e H1 H2).
Qed.

Lemma fight_failed_update_keeps_ring_witness :
  let s := mkState [tyson; ali] [tyson_row] always_tenth 0 [] in
  fst (@fight Exact s) = Raise (NotFound 2) /\
  ring (snd (@fight Exact s)) = [tyson; ali] /\
  boxers (snd (@fight Exact s)) = [mkRow 1 "Mike Tyson" 220 178 71 25 1 1].
Proof.
  intros s.
  destruct (@fight_failed_update_keeps_ring Exact s tyson ali "0.10"
              (1 / 10)%R eq_refl eq_refl)
    as [winner [loser [[[_ [-> ->]] | [Hge _]] [_ Hsecond]]]].
  - apply (Hsecond (NotFound 2)); reflexivity.
  - exfalso.
    pose proof (@normalized_delta_range Exact (@get_fighting_skill Exact tyson)
                  (@get_fighting_skill Exact ali)).
    lra.
Defined.

(** * A boxer entered twice *)




(** * The winning threshold *)






(** * The leaderboard *)

Section OrderBy.
Variable A : Type.
Variable ge : A -> A -> bool.
Hypothesis ge_total : forall x y : A, ge x y = true \/ ge y x = true.
Hypothesis ge_trans :
  forall x y z : A, ge x y = true -> ge y z = true -> ge x z = true.

Lemma insert_desc_perm (x : A) (l : list A) :
  Permutation (insert_desc ge x l) (x :: l).
Proof.
  induction l as [|y l IH]; cbn [insert_desc]; [reflexivity|].
  destruct (ge x y); [reflexivity|].
  rewrite IH. apply perm_swap.
Qed.

Lemma order_by_desc_perm (l : list A) : Permutation (order_by_desc ge l) l.
Proof.
  induction l as [|x l IH]; cbn; [reflexivity|].
  fold (order_by_desc ge l). rewrite insert_desc_perm. now constructor.
Qed.

Lemma insert_desc_sorted (x : A) (l : list A) :
  StronglySorted (fun a b => ge a b = true) l ->
  StronglySorted (fun a b => ge a b = true) (insert_desc ge x l).
Proof.
  induction l as [|y l IH]; intros Hs; cbn [insert_desc].
  - constructor; constructor.
  - apply StronglySorted_inv in Hs. destruct Hs as [Hs Hy].
    destruct (ge x y) eqn:E.
    + constructor; [constructor; assumption|].
      constructor; [exact E|].
      eapply Forall_impl; [|exact Hy]. intros z Hz. cbv beta in Hz.
      now apply (ge_trans x y z).
    + constructor; [now apply IH|].
      apply (Permutation_Forall (Permutation_sym (insert_desc_perm x l))).
      constructor; [|exact Hy].
      destruct (ge_total x y) as [H | H]; [congruence | exact H].
Qed.

Lemma order_by_desc_sorted (l : list A) :
  StronglySorted (fun a b => ge a b = true) (order_by_desc ge l).
Proof.
  induction l as [|x l IH]; cbn; [constructor|].
  fold (order_by_desc ge l). now apply insert_desc_sorted.
Qed.
End OrderBy.

Lemma sorted_along {A B : Type} (P : A -> B -> Prop)
    (RA : A -> A -> Prop) (RB : B -> B -> Prop) :
  (forall a1 a2 b1 b2, P a1 b1 -> P a2 b2 -> RA a1 a2 -> RB b1 b2) ->
  forall (la : list A) (lb : list B),
    Forall2 P la lb -> StronglySorted RA la -> StronglySorted RB lb.
Proof.
  intros Hrel la lb H2. induction H2 as [|a b la lb Hab H2 IH]; intros Hs.
  - constructor.
  - apply StronglySorted_inv in Hs. destruct Hs as [Hs Ha].
    constructor; [now apply IH|].
    clear IH Hs. induction H2 as [|a' b' la lb Hab' H2 IH]; constructor.
    + apply (Hrel a a' b b' Hab Hab'). now inversion Ha.
    + apply IH. now inversion Ha.
Qed.

Lemma Rgeb_total (x y : R) : Rgeb x y = true \/ Rgeb y x = true.
Proof.
  unfold Rgeb. destruct (Rle_dec y x); [now left|].
  destruct (Rle_dec x y); [now right | exfalso; lra].
Qed.

Lemma Rgeb_trans (x y z : R) :
  Rgeb x y = true -> Rgeb y z = true -> Rgeb x z = true.
Proof.
  unfold Rgeb. destruct (Rle_dec y x); [|discriminate].
  destruct (Rle_dec z y); [|discriminate].
  destruct (Rle_dec z x); [reflexivity | exfalso; lra].
Qed.

Lemma Rgeb_le (x y : R) : Rgeb x y = true -> (y <= x)%R.
Proof. unfold Rgeb. destruct (Rle_dec y x); [trivial | discriminate]. Qed.

Section LeaderboardFacts.
Context {F : Binary64}.

Lemma leaderboard_entry_listed (r : row) :
  125 <= row_weight r ->
  exists e, leaderboard_entry r = Ok e /\ listed r e.
Proof.
  intros H. unfold leaderboard_entry.
  destruct (get_weight_class (row_weight r)) as [wc | e] eqn:E.
  - eexists. split; [reflexivity|]. unfold listed. cbn. now repeat split.
  - unfold get_weight_class in E.
    destruct (Z.geb_spec (row_weight r) 203); [discriminate|].
    destruct (Z.geb_spec (row_weight r) 166); [discriminate|].
    destruct (Z.geb_spec (row_weight r) 133); [discriminate|].
    destruct (Z.geb_spec (row_weight r) 125); [discriminate | lia].
Qed.

Lemma leaderboard_loop_listed (rows : list row) :
  Forall (fun r => 125 <= row_weight r) rows ->
  exists leaderboard,
    leaderboard_loop rows = Ok leaderboard /\ Forall2 listed rows leaderboard.
Proof.
  induction 1 as [|r rows Hr Hrows [l [IHl IH2]]]; cbn [leaderboard_loop].
  - exists []. split; [reflexivity | constructor].
  - destruct (leaderboard_entry_listed r Hr) as [e [-> He]]. rewrite IHl.
    exists (e :: l). split; [reflexivity | now constructor].
Qed.

Lemma win_pct_monotone (r1 r2 : row) :
  (win_ratio r2 <= win_ratio r1)%R -> (win_pct r2 <= win_pct r1)%R.
Proof.
  intros H. unfold win_pct, fmul.
  apply round1_monotone, rnd_monotone.
  assert (H100 : (0 <= of_int 100)%R).
  { unfold of_int. apply rnd_nonneg. lra. }
  nra.
Qed.

Lemma select_where_run (p : row -> bool) (s : State) :
  select_where p s = (Ok (filter p (boxers s)), s).
Proof. reflexivity. Qed.

(** [get_leaderboard] with an accepted [sort_by] and a given order. *)
Lemma get_leaderboard_ordered (s : State) (sort_by : string)
    (ge : row -> row -> bool) :
  ((sort_by =? "win_pct")%string = true /\
   ge = (fun r1 r2 => Rgeb (win_ratio r1) (win_ratio r2)) \/
   (sort_by =? "win_pct")%string = false /\
   (sort_by =? "wins")%string = true /\
   ge = (fun r1 r2 => row_wins r1 >=? row_wins r2)) ->
  get_leaderboard sort_by s =
    (leaderboard_loop
       (order_by_desc ge (filter (fun r => row_fights r >? 0) (boxers s))), s).
Proof.
  intros [[E ->] | [E1 [E2 ->]]]; cbv [get_leaderboard bind ret raise lift];
    rewrite ?E, ?E1, ?E2; rewrite select_where_run; reflexivity.
Qed.
End LeaderboardFacts.

(** Weights below 125 never enter the table: [create_boxer] refuses them,
    and neither [update_boxer_stats] nor [delete_boxer] changes a weight. *)
Lemma create_boxer_weights {F : Binary64} (name : string) (weight height : Z)
    (reach : R) (age : Z) (s : State) :
  Forall (fun r => 125 <= row_weight r) (boxers s) ->
  Forall (fun r => 125 <= row_weight r)
         (boxers (snd (create_boxer name weight height reach age s))).
Proof.
  intros H. unfold create_boxer.
  destruct (Z.ltb_spec weight 125) as [Hw | Hw]; [exact H|].
  destruct (height <=? 0); [exact H|].
  destruct (Rle_dec reach 0); [exact H|].
  destruct (negb _); [exact H|].
  cbv [bind select_where get ret raise insert_boxer set_boxers].
  destruct (filter _ (boxers s)); cbn [snd boxers]; [|exact H].
  apply Forall_app. split; [exact H|]. constructor; [exact Hw | constructor].
Qed.

Lemma delete_boxer_weights (boxer_id : Z) (s : State) :
  Forall (fun r => 125 <= row_weight r) (boxers s) ->
  Forall (fun r => 125 <= row_weight r) (boxers (snd (delete_boxer boxer_id s))).
Proof.
  intros H. cbv [delete_boxer bind select_where get ret raise delete_where
                 set_boxers].
  destruct (filter (has_id boxer_id) (boxers s)) as [|r0 l0];
    cbn [snd boxers]; [exact H|].
  rewrite Forall_forall in *. intros r Hin. apply filter_In in Hin.
  now apply H.
Qed.

Lemma update_boxer_stats_weights (boxer_id : Z) (result : string) (s : State) :
  Forall (fun r => 125 <= row_weight r) (boxers s) ->
  Forall (fun r => 125 <= row_weight r)
         (boxers (snd (update_boxer_stats boxer_id result s))).
Proof.
  intros H. rewrite update_boxer_stats_run.
  destruct (negb _); [exact H|].
  destruct (filter _ _) as [|r1 l1]; cbn [snd boxers]; [exact H|].
  unfold stats_updated. rewrite Forall_forall in *. intros r Hin.
  apply in_map_iff in Hin. destruct Hin as [r0 [<- Hin]].
  destruct (row_id r0 =? boxer_id); cbn; now apply H.
Qed.

Lemma listed_fights {F : Binary64} (r : row) (e : entry) :
  listed r e -> 0 < row_fights r -> 0 < entry_fights e.
Proof.
  intros (_ & _ & _ & _ & _ & _ & _ & -> & _) H. exact H.
Qed.

Lemma Zgeb_total (x y : Z) : (x >=? y) = true \/ (y >=? x) = true.
Proof. rewrite !Z.geb_le. lia. Qed.

Lemma Zgeb_trans (x y z : Z) :
  (x >=? y) = true -> (y >=? z) = true -> (x >=? z) = true.
Proof. rewrite !Z.geb_le. lia. Qed.

Lemma Forall_along {A B : Type} (P : A -> B -> Prop) (QA : A -> Prop)
    (QB : B -> Prop) :
  (forall a b, P a b -> QA a -> QB b) ->
  forall (la : list A) (lb : list B),
    Forall2 P la lb -> Forall QA la -> Forall QB lb.
Proof.
  intros H la lb H2. induction H2 as [|a b la lb Hab H2 IH]; intros HA.
  - constructor.
  - inversion HA; subst. constructor; [now apply (H a b) | now apply IH].
Qed.

(** C8: [get_leaderboard] raises the invalid-sort error unless [sort_by]
    is 'wins' or 'win_pct'.  Otherwise, on a table whose weights are all at
    least 125 (what [create_boxer] lets in), it returns one entry for each row
    with [fights > 0] and for no other row, each entry carrying the row's
    columns and [win_pct = round(wins * 1.0 / fights * 100, 1)], in
    descending order of the field asked for. *)
Theorem get_leaderboard_spec {F : Binary64} (s : State) (sort_by : string) :
  (sort_by <> "wins" -> sort_by <> "win_pct" ->
     get_leaderboard sort_by s = (Raise (InvalidSortBy sort_by), s) /\
     InvalidArgument (InvalidSortBy sort_by)) /\
  (sort_by = "wins" \/ sort_by = "win_pct" ->
   Forall (fun r => 125 <= row_weight r) (boxers s) ->
   exists (rows : list row) (leaderboard : list entry),
     get_leaderboard sort_by s = (Ok leaderboard, s) /\
     Permutation rows (filter (fun r => row_fights r >? 0) (boxers s)) /\
     Forall2 listed rows leaderboard /\
     Forall (fun e => 0 < entry_fights e) leaderboard /\
     (sort_by = "wins" ->
        StronglySorted (fun e1 e2 => entry_wins e2 <= entry_wins e1)
                       leaderboard) /\
     (sort_by = "win_pct" ->
        StronglySorted (fun e1 e2 => (entry_win_pct e2 <= entry_win_pct e1)%R)
                       leaderboard)).
Proof.
  split.
  - intros Hw Hp. split; [|right; now exists sort_by].
    cbv [get_leaderboard bind ret raise lift].
    destruct (String.eqb_spec sort_by "win_pct"); [contradiction|].
    destruct (String.eqb_spec sort_by "wins"); [contradiction|]. reflexivity.
  - intros Hsort Hweights.
    set (selected := filter (fun r => row_fights r >? 0) (boxers s)).
    assert (Hfights : Forall (fun r => 0 < row_fights r) selected).
    { apply Forall_forall. intros r Hin. apply filter_In in Hin.
      destruct Hin as [_ Hin]. apply Z.gtb_lt in Hin. exact Hin. }
    assert (Hsel : Forall (fun r => 125 <= row_weight r) selected).
    { apply Forall_forall. intros r Hin. apply filter_In in Hin.
      destruct Hin as [Hin _]. rewrite Forall_forall in Hweights.
      now apply Hweights. }
    assert (Hall : forall ge,
               exists leaderboard,
                 leaderboard_loop (order_by_desc ge selected) = Ok leaderboard /\
                 Forall2 listed (order_by_desc ge selected) leaderboard /\
                 Forall (fun e => 0 < entry_fights e) leaderboard).
    { intros ge.
      pose proof (order_by_desc_perm row ge selected) as Hperm.
      apply Permutation_sym in Hperm.
      destruct (leaderboard_loop_listed (order_by_desc ge selected)
                  (Permutation_Forall Hperm Hsel)) as [l [Hl H2]].
      exists l. split; [exact Hl|]. split; [exact H2|].
      apply (Forall_along listed (fun r => 0 < row_fights r)
               (fun e => 0 < entry_fights e) listed_fights _ _ H2).
      exact (Permutation_Forall Hperm Hfights). }
    destruct Hsort as [-> | ->].
    + set (ge := fun r1 r2 : row => row_wins r1 >=? row_wins r2).
      destruct (Hall ge) as [l [Hl [H2 Hpos]]].
      exists (order_by_desc ge selected), l.
      split.
      { rewrite (get_leaderboard_ordered s "wins" ge) by (right; auto).
        fold selected. rewrite Hl. reflexivity. }
      split; [apply order_by_desc_perm|].
      split; [exact H2|]. split; [exact Hpos|].
      split; [|discriminate].
      intros _.
      apply (sorted_along listed (fun r1 r2 => ge r1 r2 = true)
               (fun e1 e2 => entry_wins e2 <= entry_wins e1)) with
        (la := order_by_desc ge selected); [|exact H2|].
      * intros r1 r2 e1 e2 H1 H2' Hge. unfold ge in Hge.
        apply Z.geb_le in Hge.
        destruct H1 as (_ & _ & _ & _ & _ & _ & _ & _ & -> & _).
        destruct H2' as (_ & _ & _ & _ & _ & _ & _ & _ & -> & _).
        exact Hge.
      * apply order_by_desc_sorted; intros; unfold ge;
          [apply Zgeb_total | eapply Zgeb_trans; eassumption].
    + set (ge := fun r1 r2 : row => Rgeb (win_ratio r1) (win_ratio r2)).
      destruct (Hall ge) as [l [Hl [H2 Hpos]]].
      exists (order_by_desc ge selected), l.
      split.
      { rewrite (get_leaderboard_ordered s "win_pct" ge) by (left; auto).
        fold selected. rewrite Hl. reflexivity. }
      split; [apply order_by_desc_perm|].
      split; [exact H2|]. split; [exact Hpos|].
      split; [discriminate|].
      intros _.
      apply (sorted_along listed (fun r1 r2 => ge r1 r2 = true)
               (fun e1 e2 => (entry_win_pct e2 <= entry_win_pct e1)%R)) with
        (la := order_by_desc ge selected); [|exact H2|].
      * intros r1 r2 e1 e2 H1 H2' Hge. unfold ge in Hge.
        apply Rgeb_le in Hge.
        destruct H1 as (_ & _ & _ & _ & _ & _ & _ & _ & _ & ->).
        destruct H2' as (_ & _ & _ & _ & _ & _ & _ & _ & _ & ->).
        now apply win_pct_monotone.
      * apply order_by_desc_sorted; intros; unfold ge;
          [apply Rgeb_total | eapply Rgeb_trans; eassumption].
Qed.

Lemma get_leaderboard_spec_witness :
  exists (rows : list row) (leaderboard : list entry),
    @get_leaderboard Exact "win_pct" three_rows = (Ok leaderboard, three_rows) /\
    Permutation rows [veteran_row; prospect_row] /\
    Forall2 (@listed Exact) rows leaderboard /\
    Forall (fun e => 0 < entry_fights e) leaderboard /\
    ("win_pct" = "wins" ->
       StronglySorted (fun e1 e2 => entry_wins e2 <= entry_wins e1)
                      leaderboard) /\
    ("win_pct" = "win_pct" ->
       StronglySorted (fun e1 e2 => (entry_win_pct e2 <= entry_win_pct e1)%R)
                      leaderboard).
Proof.
  apply (@get_leaderboard_spec Exact three_rows "win_pct").
  - now right.
  - repeat constructor; cbn; lia.
Defined.

(** By wins the veteran comes first, by percentage the prospect does; the
    newcomer is in neither list. *)
Example leaderboard_by_wins :
  exists leaderboard,
    fst (@get_leaderboard Exact "wins" three_rows) = Ok leaderboard /\
    map entry_name leaderboard = ["Veteran"; "Prospect"].
Proof. eexists. split; reflexivity. Qed.

Example leaderboard_by_win_pct :
  exists leaderboard,
    fst (@get_leaderboard Exact "win_pct" three_rows) = Ok leaderboard /\
    map entry_name leaderboard = ["Prospect"; "Veteran"].
Proof.
  rewrite (get_leaderboard_ordered three_rows "win_pct"
             (fun r1 r2 => Rgeb (@win_ratio Exact r1) (@win_ratio Exact r2)))
    by (left; auto).
  cbn [three_rows boxers filter veteran_row prospect_row newcomer_row
       row_fights Z.gtb Z.compare order_by_desc fold_right insert_desc fst].
  assert (E : Rgeb (@win_ratio Exact veteran_row) (@win_ratio Exact prospect_row)
              = false).
  { unfold Rgeb, win_ratio, fdiv, fmul, of_int. cbn.
    destruct (Rle_dec _ _) as [H | H]; [exfalso; lra | reflexivity]. }
  fold veteran_row prospect_row. rewrite E.
  eexists. split; reflexivity.
Qed.

(** * Creating a boxer *)

Lemma create_boxer_run {F : Binary64} (name : string) (weight height : Z)
    (reach : R) (age : Z) (s : State) :
  create_boxer name weight height reach age s =
    if weight <? 125 then (Raise (InvalidWeight weight), s)
    else if height <=? 0 then (Raise (InvalidHeight height), s)
    else if Rle_dec reach 0 then (Raise (InvalidReach (fstr reach)), s)
    else if negb ((18 <=? age) && (age <=? 40)) then (Raise (InvalidAge age), s)
    else
      match filter (fun r => (row_name r =? name)%string) (boxers s) with
      | _ :: _ => (Raise (DuplicateName name), s)
      | [] =>
          (Ok tt,
           mkState (ring s)
                   (boxers s ++
                    [mkRow (assigned_id (boxers s)) name weight height reach
                           age 0 0])
                   (random_org s) (requests s) (calls s))
      end.
Proof.
  unfold create_boxer.
  destruct (weight <? 125); [reflexivity|].
  destruct (height <=? 0); [reflexivity|].
  destruct (Rle_dec reach 0); [reflexivity|].
  destruct (negb _); [reflexivity|].
  cbv [bind select_where get ret raise insert_boxer set_boxers].
  destruct (filter _ (boxers s)); reflexivity.
Qed.

Lemma filter_name_nil (name : string) (t : list row) :
  filter (fun r => (row_name r =? name)%string) t = [] <->
  ~ In name (map row_name t).
Proof.
  induction t as [|r t IH]; cbn [filter map In]; [tauto|].
  destruct (String.eqb_spec (row_name r) name) as [E | E].
  - split; [discriminate | intros H; exfalso; apply H; now left].
  - rewrite IH. tauto.
Qed.

(** X1: [create_boxer] returns exactly when the weight is at least 125,
    the height and the reach are positive, the age is between 18 and 40 and
    no row has the name; the checks are made in that order, each with its own
    error; when it raises, the state is the one before the call, and when it
    returns, one row with the five values was added at the end of the table
    and nothing else changed. *)
Theorem create_boxer_checks {F : Binary64} (name : string) (weight height : Z)
    (reach : R) (age : Z) (s : State) :
  let out := create_boxer name weight height reach age s in
  (fst out = Ok tt <->
   125 <= weight /\ 0 < height /\ (0 < reach)%R /\ 18 <= age <= 40 /\
   ~ In name (map row_name (boxers s))) /\
  (forall e, fst out = Raise e -> snd out = s) /\
  (weight < 125 -> fst out = Raise (InvalidWeight weight)) /\
  (125 <= weight -> height <= 0 -> fst out = Raise (InvalidHeight height)) /\
  (125 <= weight -> 0 < height -> (reach <= 0)%R ->
     fst out = Raise (InvalidReach (fstr reach))) /\
  (125 <= weight -> 0 < height -> (0 < reach)%R -> ~ 18 <= age <= 40 ->
     fst out = Raise (InvalidAge age)) /\
  (125 <= weight -> 0 < height -> (0 < reach)%R -> 18 <= age <= 40 ->
   In name (map row_name (boxers s)) ->
     fst out = Raise (DuplicateName name)) /\
  (fst out = Ok tt ->
     exists r : row,
       boxers (snd out) = boxers s ++ [r] /\
       row_name r = name /\ row_weight r = weight /\
       row_height r = height /\ row_reach r = reach /\ row_age r = age /\
       ring (snd out) = ring s /\ requests (snd out) = requests s /\
       calls (snd out) = calls s).
Proof.
  intros out. subst out. rewrite create_boxer_run.
  pose proof (filter_name_nil name (boxers s)) as Hname.
  destruct (Z.ltb_spec weight 125) as [Hw | Hw];
    [cbn [fst snd]; repeat split; try tauto; try lia; try discriminate;
     intros H; exfalso; lia |].
  destruct (Z.leb_spec height 0) as [Hh | Hh];
    [cbn [fst snd]; repeat split; try tauto; try lia; try discriminate;
     intros H; exfalso; lia |].
  destruct (Rle_dec reach 0) as [Hr | Hr];
    [cbn [fst snd]; repeat split; try tauto; try lia; try lra;
     try discriminate; intros H; exfalso; lra |].
  apply Rnot_le_lt in Hr.
  destruct (Z.leb_spec 18 age) as [Ha1 | Ha1];
    destruct (Z.leb_spec age 40) as [Ha2 | Ha2]; cbn [andb negb];
    try (cbn [fst snd]; repeat split; try tauto; try lia; try lra;
         try discriminate; intros H; exfalso; lia).
  destruct (filter _ (boxers s)) as [|r0 l0] eqn:E; cbn [fst snd].
  - assert (Hfree : ~ In name (map row_name (boxers s))) by now apply Hname.
    repeat split; try tauto; try lia; try lra; try discriminate.
    intros _. eexists. cbn [boxers ring requests calls]. repeat split.
  - assert (Hused : In name (map row_name (boxers s))).
    { destruct (in_dec string_dec name (map row_name (boxers s))) as [H | H];
        [exact H|]. apply Hname in H. discriminate. }
    repeat split; try tauto; try lia; try lra; try discriminate.
Qed.

Lemma create_boxer_checks_witness :
  let s := mkState [] [tyson_row] always_tenth 0 [] in
  fst (@create_boxer Exact "Muhammad Ali" 215 191 78 30 s) = Ok tt /\
  fst (@create_boxer Exact "X" 120 178 71 25 s) = Raise (InvalidWeight 120) /\
  fst (@create_boxer Exact "Mike Tyson" 220 178 71 25 s)
    = Raise (DuplicateName "Mike Tyson").
Proof.
  intros s. split; [|split].
  - apply (@create_boxer_checks Exact "Muhammad Ali" 215 191 78 30 s).
    repeat split; try lia; try lra.
    cbn. intros [H | H]; [discriminate | exact H].
  - apply (@create_boxer_checks Exact "X" 120 178 71 25 s). lia.
  - apply (@create_boxer_checks Exact "Mike Tyson" 220 178 71 25 s);
      try lia; try lra. now left.
Defined.

(** * Looking a boxer up *)

Lemma boxer_of_row_heavy (r : row) :
  125 <= row_weight r ->
  exists wc,
    get_weight_class (row_weight r) = Ok wc /\
    boxer_of_row r =
      Ok (mkBoxer (row_id r) (row_name r) (row_weight r) (row_height r)
                  (row_reach r) (row_age r) wc).
Proof.
  intros H. unfold boxer_of_row, Boxer_init.
  destruct (get_weight_class (row_weight r)) as [wc | e] eqn:E.
  - exists wc. split; reflexivity.
  - unfold get_weight_class in E.
    destruct (Z.geb_spec (row_weight r) 203); [discriminate|].
    destruct (Z.geb_spec (row_weight r) 166); [discriminate|].
    destruct (Z.geb_spec (row_weight r) 133); [discriminate|].
    destruct (Z.geb_spec (row_weight r) 125); [discriminate | lia].
Qed.

Lemma boxer_of_row_light (r : row) :
  row_weight r < 125 ->
  boxer_of_row r = Raise (InvalidAttribute (row_weight r)).
Proof.
  intros H. unfold boxer_of_row, Boxer_init, get_weight_class.
  destruct (Z.geb_spec (row_weight r) 203); [lia|].
  destruct (Z.geb_spec (row_weight r) 166); [lia|].
  destruct (Z.geb_spec (row_weight r) 133); [lia|].
  destruct (Z.geb_spec (row_weight r) 125); [lia | reflexivity].
Qed.

(** The first row a [SELECT] fetches is the first row of the table that
    passes the test. *)
Lemma filter_first {A : Type} (p : A -> bool) (l : list A) :
  match filter p l with
  | [] => find p l = None
  | x :: _ => find p l = Some x
  end.
Proof.
  induction l as [|a l IH]; cbn [filter find]; [reflexivity|].
  destruct (p a); [reflexivity | exact IH].
Qed.

Lemma find_after {A : Type} (p : A -> bool) (l1 l2 : list A) :
  find p l1 = None -> find p (l1 ++ l2) = find p l2.
Proof.
  induction l1 as [|a l1 IH]; cbn [find app]; [reflexivity|].
  destruct (p a); [discriminate | exact IH].
Qed.

Lemma get_boxer_by_id_run (boxer_id : Z) (s : State) :
  get_boxer_by_id boxer_id s =
    (match find (has_id boxer_id) (boxers s) with
     | Some r => boxer_of_row r
     | None => Raise (NotFound boxer_id)
     end, s).
Proof.
  cbv [get_boxer_by_id bind select_where get ret raise lift].
  pose proof (filter_first (has_id boxer_id) (boxers s)) as H.
  destruct (filter (has_id boxer_id) (boxers s)); rewrite H; reflexivity.
Qed.

Lemma get_boxer_by_name_run (boxer_name : string) (s : State) :
  get_boxer_by_name boxer_name s =
    (match find (fun r => (row_name r =? boxer_name)%string) (boxers s) with
     | Some r => boxer_of_row r
     | None => Raise (NameNotFound boxer_name)
     end, s).
Proof.
  cbv [get_boxer_by_name bind select_where get ret raise lift].
  pose proof (filter_first (fun r => (row_name r =? boxer_name)%string)
                (boxers s)) as H.
  destruct (filter _ (boxers s)); rewrite H; reflexivity.
Qed.

Lemma find_none_iff {A : Type} (p : A -> bool) (l : list A) :
  find p l = None <-> (forall x, In x l -> p x = false).
Proof.
  split.
  - intros H x Hin. exact (find_none p l H x Hin).
  - intros H. destruct (find p l) as [x|] eqn:E; [|reflexivity].
    apply find_some in E. destruct E as [Hin Hp].
    rewrite (H x Hin) in Hp. discriminate.
Qed.

(** X2: [get_boxer_by_id] never changes the state.  It raises the
    not-found error when no row has the id.  Otherwise it looks at the first
    row with the id: a weight of at least 125 gives a [Boxer] with the row's
    id, name, weight, height, reach and age and the weight class of that
    weight, and a lower weight makes the constructor raise the weight
    error.  A boxer it returns has the id asked for and shows a row of the
    table. *)
Theorem get_boxer_by_id_spec (boxer_id : Z) (s : State) :
  let out := get_boxer_by_id boxer_id s in
  snd out = s /\
  ((forall r, In r (boxers s) -> row_id r <> boxer_id) ->
     fst out = Raise (NotFound boxer_id)) /\
  (forall r, find (has_id boxer_id) (boxers s) = Some r ->
     (125 <= row_weight r ->
        exists wc,
          get_weight_class (row_weight r) = Ok wc /\
          fst out = Ok (mkBoxer boxer_id (row_name r) (row_weight r)
                                (row_height r) (row_reach r) (row_age r) wc)) /\
     (row_weight r < 125 ->
        fst out = Raise (InvalidAttribute (row_weight r)))) /\
  (forall b, fst out = Ok b ->
     id b = boxer_id /\
     get_weight_class (weight b) = Ok (weight_class b) /\
     exists r, In r (boxers s) /\ row_id r = id b /\ row_name r = name b /\
               row_weight r = weight b /\ row_height r = height b /\
               row_reach r = reach b /\ row_age r = age b).
Proof.
  intros out. subst out. rewrite get_boxer_by_id_run. cbn [fst snd].
  split; [reflexivity|]. split; [|split].
  - intros Hno.
    assert (E : find (has_id boxer_id) (boxers s) = None).
    { apply find_none_iff. intros r Hin. unfold has_id.
      apply Z.eqb_neq. now apply Hno. }
    rewrite E. reflexivity.
  - intros r E. rewrite E.
    pose proof (find_some _ _ E) as [_ Hid]. unfold has_id in Hid.
    apply Z.eqb_eq in Hid. split.
    + intros Hw. destruct (boxer_of_row_heavy r Hw) as [wc [Hwc ->]].
      exists wc. rewrite Hid. split; [exact Hwc | reflexivity].
    + intros Hw. now apply boxer_of_row_light.
  - intros b Hb.
    destruct (find (has_id boxer_id) (boxers s)) as [r|] eqn:E; [|discriminate].
    pose proof (find_some _ _ E) as [Hin Hid]. unfold has_id in Hid.
    apply Z.eqb_eq in Hid.
    destruct (Z_lt_le_dec (row_weight r) 125) as [Hw | Hw].
    + rewrite (boxer_of_row_light r Hw) in Hb. discriminate.
    + destruct (boxer_of_row_heavy r Hw) as [wc [Hwc Hr]].
      rewrite Hr in Hb. injection Hb as <-. cbn.
      split; [exact Hid|]. split; [exact Hwc|].
      exists r. repeat split; assumption.
Qed.

Lemma get_boxer_by_id_spec_witness :
  let s := mkState [] [tyson_row; ali_row] always_tenth 0 [] in
  fst (get_boxer_by_id 2 s) = Ok ali /\
  fst (get_boxer_by_id 7 s) = Raise (NotFound 7).
Proof.
  intros s.
  destruct (get_boxer_by_id_spec 2 s) as [_ [_ [Hfound _]]].
  destruct (get_boxer_by_id_spec 7 s) as [_ [Hnone _]].
  split.
  - destruct (Hfound ali_row eq_refl) as [Hheavy _].
    destruct Hheavy as [wc [Hwc Hb]]; [cbn; lia|].
    injection Hwc as <-. exact Hb.
  - apply Hnone. intros r [<- | [<- | []]]; discriminate.
Defined.

(** * Creating, then looking up *)

Lemma create_boxer_returned {F : Binary64} (name : string) (weight height : Z)
    (reach : R) (age : Z) (s : State) :
  fst (create_boxer name weight height reach age s) = Ok tt ->
  125 <= weight /\
  ~ In name (map row_name (boxers s)) /\
  snd (create_boxer name weight height reach age s) =
    mkState (ring s)
            (boxers s ++
             [mkRow (assigned_id (boxers s)) name weight height reach age 0 0])
            (random_org s) (requests s) (calls s).
Proof.
  rewrite create_boxer_run.
  destruct (Z.ltb_spec weight 125) as [Hw | Hw]; [discriminate|].
  destruct (height <=? 0); [discriminate|].
  destruct (Rle_dec reach 0); [discriminate|].
  destruct (negb _); [discriminate|].
  destruct (filter _ (boxers s)) eqn:E; [|discriminate].
  intros _. apply filter_name_nil in E. repeat split; assumption.
Qed.

Lemma assigned_id_above (t : list row) (r : row) :
  In r t -> row_id r < assigned_id t.
Proof.
  unfold assigned_id. induction t as [|a t IH]; intros Hin; [contradiction|].
  cbn [fold_right]. destruct Hin as [-> | Hin]; [lia|].
  specialize (IH Hin). lia.
Qed.

Lemma find_name_absent (name : string) (t : list row) :
  ~ In name (map row_name t) ->
  find (fun r => (row_name r =? name)%string) t = None.
Proof.
  intros H. apply find_none_iff. intros r Hin.
  apply String.eqb_neq. intros E. apply H. rewrite <- E. now apply in_map.
Qed.

Lemma find_before {A : Type} (p : A -> bool) (l1 l2 : list A) (x : A) :
  find p l1 = Some x -> find p (l1 ++ l2) = Some x.
Proof.
  induction l1 as [|a l1 IH]; cbn [find app]; [discriminate|].
  destruct (p a); [trivial | exact IH].
Qed.

(** X3: once [create_boxer] has returned, [get_boxer_by_name] with the
    same name, which raised the not-found error before, returns a [Boxer]
    with the name, weight, height, reach and age given to [create_boxer] and
    the weight class of that weight; what it does for any other name is what
    it did before the creation. *)
Theorem create_then_get_by_name {F : Binary64} (nm : string) (wt ht : Z)
    (rc : R) (ag : Z) (s : State) :
  fst (create_boxer nm wt ht rc ag s) = Ok tt ->
  let s' := snd (create_boxer nm wt ht rc ag s) in
  fst (get_boxer_by_name nm s) = Raise (NameNotFound nm) /\
  (exists b,
      get_boxer_by_name nm s' = (Ok b, s') /\
      name b = nm /\ weight b = wt /\ height b = ht /\ reach b = rc /\
      age b = ag /\ get_weight_class wt = Ok (weight_class b)) /\
  (forall other, other <> nm ->
      fst (get_boxer_by_name other s') = fst (get_boxer_by_name other s)).
Proof.
  intros Hok s'.
  destruct (create_boxer_returned nm wt ht rc ag s Hok) as [Hw [Hfree Hs']].
  subst s'. rewrite Hs'. clear Hs'.
  pose proof (find_name_absent nm (boxers s) Hfree) as Hnone.
  split; [rewrite get_boxer_by_name_run, Hnone; reflexivity|]. split.
  - rewrite get_boxer_by_name_run. cbn [boxers].
    rewrite (find_after _ _ _ Hnone). cbn [find row_name].
    rewrite String.eqb_refl.
    destruct (boxer_of_row_heavy
                (mkRow (assigned_id (boxers s)) nm wt ht rc ag 0 0) Hw)
      as [wc [Hwc ->]].
    eexists. split; [reflexivity|]. cbn. repeat split. exact Hwc.
  - intros other Hother. rewrite !get_boxer_by_name_run. cbn [fst boxers].
    destruct (find (fun r => (row_name r =? other)%string) (boxers s))
      as [r|] eqn:E.
    + rewrite (find_before _ _ _ _ E). reflexivity.
    + rewrite (find_after _ _ _ E). cbn [find row_name].
      destruct (String.eqb_spec nm other) as [E' | _];
        [now contradiction Hother | reflexivity].
Qed.

Lemma create_then_get_by_name_witness :
  let s := mkState [] [tyson_row] always_tenth 0 [] in
  let s' := snd (@create_boxer Exact "Muhammad Ali" 215 191 78 30 s) in
  exists b,
    get_boxer_by_name "Muhammad Ali" s' = (Ok b, s') /\
    name b = "Muhammad Ali" /\ weight b = 215 /\ height b = 191 /\
    reach b = 78%R /\ age b = 30 /\
    get_weight_class 215 = Ok (weight_class b).
Proof.
  intros s s'.
  apply (@create_then_get_by_name Exact "Muhammad Ali" 215 191 78 30 s).
  rewrite create_boxer_run. cbn [Z.ltb Z.leb Z.compare Pos.compare
                                 Pos.compare_cont].
  destruct (Rle_dec 78 0) as [H | H]; [exfalso; lra | reflexivity].
Defined.

Lemma find_id_absent (boxer_id : Z) (t : list row) :
  (forall r, In r t -> row_id r <> boxer_id) ->
  find (has_id boxer_id) t = None.
Proof.
  intros H. apply find_none_iff. intros r Hin. unfold has_id.
  apply Z.eqb_neq. now apply H.
Qed.

(** X4: with the id of a new row being one more than the largest id of
    the table, the boxer [create_boxer] has added is the one that
    [get_boxer_by_id] returns for that id, which no row had before, and the
    one that [get_boxer_by_name] returns for the name; for every other id
    [get_boxer_by_id] does what it did before the creation. *)
Theorem create_then_get_by_id {F : Binary64} (nm : string) (wt ht : Z)
    (rc : R) (ag : Z) (s : State) :
  fst (create_boxer nm wt ht rc ag s) = Ok tt ->
  let s' := snd (create_boxer nm wt ht rc ag s) in
  exists b,
    name b = nm /\ weight b = wt /\ height b = ht /\ reach b = rc /\
    age b = ag /\
    (forall r, In r (boxers s) -> row_id r <> id b) /\
    get_boxer_by_id (id b) s' = (Ok b, s') /\
    get_boxer_by_name nm s' = (Ok b, s') /\
    (forall other, other <> id b ->
        fst (get_boxer_by_id other s') = fst (get_boxer_by_id other s)).
Proof.
  intros Hok s'.
  destruct (create_boxer_returned nm wt ht rc ag s Hok) as [Hw [Hfree Hs']].
  subst s'. rewrite Hs'. clear Hs'.
  set (new := mkRow (assigned_id (boxers s)) nm wt ht rc ag 0 0).
  destruct (boxer_of_row_heavy new Hw) as [wc [Hwc Hnew]].
  assert (Hfresh : forall r, In r (boxers s) -> row_id r <> assigned_id (boxers s)).
  { intros r Hin. pose proof (assigned_id_above _ _ Hin). lia. }
  exists (mkBoxer (assigned_id (boxers s)) nm wt ht rc ag wc).
  cbn [name weight height reach age id].
  do 5 (split; [reflexivity|]). split; [exact Hfresh|].
  split; [|split].
  - rewrite get_boxer_by_id_run. cbn [boxers].
    rewrite (find_after _ _ _ (find_id_absent _ _ Hfresh)).
    cbn [find]. unfold has_id at 1. cbn [row_id new]. rewrite Z.eqb_refl.
    rewrite Hnew. reflexivity.
  - rewrite get_boxer_by_name_run. cbn [boxers].
    rewrite (find_after _ _ _ (find_name_absent _ _ Hfree)).
    cbn [find row_name new]. rewrite String.eqb_refl.
    fold new. rewrite Hnew. reflexivity.
  - intros other Hother. rewrite !get_boxer_by_id_run. cbn [fst boxers].
    destruct (find (has_id other) (boxers s)) as [r|] eqn:E.
    + rewrite (find_before _ _ _ _ E). reflexivity.
    + rewrite (find_after _ _ _ E). cbn [find]. unfold has_id at 1.
      cbn [row_id new].
      destruct (Z.eqb_spec (assigned_id (boxers s)) other) as [E' | _];
        [now contradiction Hother | reflexivity].
Qed.

Lemma create_then_get_by_id_witness :
  let s := mkState [] [tyson_row] always_tenth 0 [] in
  let s' := snd (@create_boxer Exact "Muhammad Ali" 215 191 78 30 s) in
  exists b,
    name b = "Muhammad Ali" /\ weight b = 215 /\ height b = 191 /\
    reach b = 78%R /\ age b = 30 /\
    (forall r, In r (boxers s) -> row_id r <> id b) /\
    get_boxer_by_id (id b) s' = (Ok b, s') /\
    get_boxer_by_name "Muhammad Ali" s' = (Ok b, s') /\
    (forall other, other <> id b ->
        fst (get_boxer_by_id other s') = fst (get_boxer_by_id other s)).
Proof.
  intros s s'.
  apply (@create_then_get_by_id Exact "Muhammad Ali" 215 191 78 30 s).
  rewrite create_boxer_run. cbn [Z.ltb Z.leb Z.compare Pos.compare
                                 Pos.compare_cont].
  destruct (Rle_dec 78 0) as [H | H]; [exfalso; lra | reflexivity].
Defined.

(** * Deleting a boxer *)

Lemma delete_boxer_run (boxer_id : Z) (s : State) :
  delete_boxer boxer_id s =
    match filter (has_id boxer_id) (boxers s) with
    | [] => (Raise (NotFound boxer_id), s)
    | _ :: _ =>
        (Ok tt,
         mkState (ring s)
                 (filter (fun r => negb (has_id boxer_id r)) (boxers s))
                 (random_org s) (requests s) (calls s))
    end.
Proof.
  cbv [delete_boxer bind select_where get ret raise delete_where set_boxers].
  destruct (filter (has_id boxer_id) (boxers s)); reflexivity.
Qed.

Lemma delete_boxer_rows (boxer_id : Z) (s : State) (r : row) :
  In r (boxers (snd (delete_boxer boxer_id s))) <->
  In r (boxers s) /\ row_id r <> boxer_id.
Proof.
  rewrite delete_boxer_run.
  destruct (filter (has_id boxer_id) (boxers s)) as [|r0 l0] eqn:E;
    cbn [snd boxers].
  - rewrite filter_has_id_nil in E. split; [|tauto].
    intros Hin. split; [exact Hin | now apply E].
  - rewrite filter_In. unfold has_id.
    destruct (Z.eqb_spec (row_id r) boxer_id); cbn [negb]; split;
      intros [H1 H2]; split; try assumption; try reflexivity;
      try discriminate; contradiction.
Qed.

(** X5: [delete_boxer] raises the not-found error, the state staying as
    it was, when no row has the id, and otherwise returns after taking out
    the rows with that id and only them; the ring is not touched, so a
    deleted boxer stays in it.  Afterwards no row has the id:
    [get_boxer_by_id], [update_boxer_stats] and a second [delete_boxer] all
    raise the not-found error for it. *)
Theorem delete_boxer_spec (boxer_id : Z) (s : State) :
  let out := delete_boxer boxer_id s in
  ((forall r, In r (boxers s) -> row_id r <> boxer_id) ->
     out = (Raise (NotFound boxer_id), s)) /\
  ((exists r, In r (boxers s) /\ row_id r = boxer_id) ->
     fst out = Ok tt /\
     boxers (snd out) =
       filter (fun r => negb (row_id r =? boxer_id)) (boxers s)) /\
  (forall r, In r (boxers (snd out)) <->
             In r (boxers s) /\ row_id r <> boxer_id) /\
  ring (snd out) = ring s /\
  requests (snd out) = requests s /\
  calls (snd out) = calls s /\
  fst (get_boxer_by_id boxer_id (snd out)) = Raise (NotFound boxer_id) /\
  (forall result, result = "win" \/ result = "loss" ->
     fst (update_boxer_stats boxer_id result (snd out))
       = Raise (NotFound boxer_id)) /\
  fst (delete_boxer boxer_id (snd out)) = Raise (NotFound boxer_id).
Proof.
  intros out. subst out.
  assert (Hgone : forall r, In r (boxers (snd (delete_boxer boxer_id s))) ->
                            row_id r <> boxer_id).
  { intros r Hin. now apply delete_boxer_rows in Hin. }
  split; [|split; [|split; [|split; [|split; [|split; [|split; [|split]]]]]]].
  - intros Hno. rewrite delete_boxer_run.
    apply filter_has_id_nil in Hno. rewrite Hno. reflexivity.
  - intros Hsome. rewrite delete_boxer_run.
    destruct (filter_has_id_cons boxer_id (boxers s) Hsome) as [r [l ->]].
    split; reflexivity.
  - intros r. apply delete_boxer_rows.
  - rewrite delete_boxer_run. destruct (filter _ _); reflexivity.
  - rewrite delete_boxer_run. destruct (filter _ _); reflexivity.
  - rewrite delete_boxer_run. destruct (filter _ _); reflexivity.
  - rewrite get_boxer_by_id_run, (find_id_absent _ _ Hgone). reflexivity.
  - intros result Hres. rewrite update_boxer_stats_run.
    rewrite (result_accepted result Hres).
    apply filter_has_id_nil in Hgone. rewrite Hgone. reflexivity.
  - rewrite (delete_boxer_run boxer_id (snd _)).
    apply filter_has_id_nil in Hgone. rewrite Hgone. reflexivity.
Qed.

Lemma delete_boxer_spec_witness :
  let s := mkState [tyson; ali] [tyson_row; ali_row] always_tenth 0 [] in
  fst (delete_boxer 1 s) = Ok tt /\
  boxers (snd (delete_boxer 1 s)) = [ali_row] /\
  ring (snd (delete_boxer 1 s)) = [tyson; ali] /\
  delete_boxer 7 s = (Raise (NotFound 7), s).
Proof.
  intros s.
  destruct (delete_boxer_spec 1 s) as [_ [Hsome [_ [Hring _]]]].
  destruct (delete_boxer_spec 7 s) as [Hnone _].
  destruct Hsome as [Hok Hrows].
  { exists tyson_row. split; [now left | reflexivity]. }
  split; [exact Hok|]. split; [exact Hrows|]. split; [exact Hring|].
  apply Hnone. intros r [<- | [<- | []]]; discriminate.
Defined.

(** * What every sequence of calls keeps *)

Lemma stats_updated_names (boxer_id : Z) (result : string) (t : list row) :
  map row_name (stats_updated boxer_id result t) = map row_name t.
Proof.
  unfold stats_updated. rewrite map_map. apply map_ext. intros r.
  destruct (row_id r =? boxer_id); reflexivity.
Qed.

Lemma stats_updated_sound (boxer_id : Z) (result : string) (t : list row) :
  table_sound t -> table_sound (stats_updated boxer_id result t).
Proof.
  intros [Hrows Hnames]. split.
  - unfold stats_updated. rewrite Forall_forall in *. intros r' Hin.
    apply in_map_iff in Hin. destruct Hin as [r [<- Hin]].
    specialize (Hrows r Hin). destruct (row_id r =? boxer_id); [|exact Hrows].
    destruct Hrows as (Hw & Hh & Hr & Ha & Hc). unfold row_sound. cbn.
    repeat split; try assumption; try lia;
      destruct (result =? "win")%string; lia.
  - rewrite stats_updated_names. exact Hnames.
Qed.

Lemma update_boxer_stats_sound (boxer_id : Z) (result : string) (s : State) :
  table_sound (boxers s) ->
  table_sound (boxers (snd (update_boxer_stats boxer_id result s))).
Proof.
  intros H. rewrite update_boxer_stats_run.
  destruct (negb _); [exact H|].
  destruct (filter _ _); cbn [snd boxers]; [exact H|].
  now apply stats_updated_sound.
Qed.

Lemma create_boxer_sound {F : Binary64} (nm : string) (wt ht : Z) (rc : R)
    (ag : Z) (s : State) :
  table_sound (boxers s) ->
  table_sound (boxers (snd (create_boxer nm wt ht rc ag s))).
Proof.
  intros [Hrows Hnames]. rewrite create_boxer_run.
  destruct (Z.ltb_spec wt 125) as [Hw | Hw]; [now split|].
  destruct (Z.leb_spec ht 0) as [Hh | Hh]; [now split|].
  destruct (Rle_dec rc 0) as [Hr | Hr]; [now split|].
  destruct (Z.leb_spec 18 ag) as [Ha1 | Ha1];
    destruct (Z.leb_spec ag 40) as [Ha2 | Ha2]; cbn [andb negb];
    try now split.
  destruct (filter _ (boxers s)) eqn:E; [|now split].
  apply filter_name_nil in E. cbn [snd boxers]. split.
  - apply Forall_app. split; [exact Hrows|].
    constructor; [|constructor]. unfold row_sound. cbn.
    repeat split; try lia. lra.
  - rewrite map_app. cbn [map row_name].
    apply (Permutation_NoDup (Permutation_cons_append _ _)).
    now constructor.
Qed.

Lemma filter_names_nodup (p : row -> bool) (t : list row) :
  NoDup (map row_name t) -> NoDup (map row_name (filter p t)).
Proof.
  induction t as [|r t IH]; cbn [filter map]; intros H; [constructor|].
  inversion H as [|x l Hx Hl]; subst.
  destruct (p r); cbn [map]; [|now apply IH].
  constructor; [|now apply IH].
  intros Hin. apply Hx. apply in_map_iff in Hin.
  destruct Hin as [r' [E Hin]]. apply filter_In in Hin.
  rewrite <- E. apply in_map. tauto.
Qed.

Lemma delete_boxer_sound (boxer_id : Z) (s : State) :
  table_sound (boxers s) ->
  table_sound (boxers (snd (delete_boxer boxer_id s))).
Proof.
  intros [Hrows Hnames]. rewrite delete_boxer_run.
  destruct (filter (has_id boxer_id) (boxers s)) as [|r0 l0];
    cbn [snd boxers]; [now split|].
  split; [|now apply filter_names_nodup].
  rewrite Forall_forall in *. intros r Hin. apply filter_In in Hin.
  now apply Hrows.
Qed.

(** The table after [fight]: as before, or with the winner's row updated,
    or with the winner's and the loser's. *)
Lemma fight_table {F : Binary64} (s : State) :
  boxers (snd (fight s)) = boxers s \/
  (exists w, In w (ring s) /\
     boxers (snd (fight s)) = stats_updated (id w) "win" (boxers s)) \/
  (exists w l, In w (ring s) /\ In l (ring s) /\
     boxers (snd (fight s)) =
       stats_updated (id l) "loss" (stats_updated (id w) "win" (boxers s))).
Proof.
  destruct (ring s) as [|b1 [|b2 [|b3 l]]] eqn:E.
  - rewrite fight_short by (rewrite E; cbn; lia). now left.
  - rewrite fight_short by (rewrite E; cbn; lia). now left.
  - rewrite (fight_draw s b1 b2 E), get_random_run.
    assert (Hne : ring (after_draw s) <> []) by (cbn; rewrite E; discriminate).
    assert (Hs : forall w l, In w [b1; b2] -> In l [b1; b2] ->
               boxers (snd (settle w l (after_draw s))) = boxers s \/
               (exists w0, In w0 [b1; b2] /\
                  boxers (snd (settle w l (after_draw s)))
                    = stats_updated (id w0) "win" (boxers s)) \/
               (exists w0 l0, In w0 [b1; b2] /\ In l0 [b1; b2] /\
                  boxers (snd (settle w l (after_draw s))) =
                    stats_updated (id l0) "loss"
                      (stats_updated (id w0) "win" (boxers s)))).
    { intros w l Hw Hl. rewrite (settle_run w l _ Hne). cbv zeta.
      cbn [after_draw boxers].
      destruct (filter (has_id (id w)) (boxers s)); [now left|].
      destruct (filter (has_id (id l)) (boxers s)); cbn [snd boxers].
      - right. left. exists w. split; [exact Hw | reflexivity].
      - right. right. exists w, l.
        split; [exact Hw | split; [exact Hl | reflexivity]]. }
    destruct (random_org s (requests s)) as [| why | text [x|]];
      try (now left).
    destruct (Rlt_dec x _); apply Hs; cbn; tauto.
  - rewrite fight_crowded by (rewrite E; cbn; lia). now left.
Qed.

Lemma get_leaderboard_state {F : Binary64} (sort_by : string) (s : State) :
  snd (get_leaderboard sort_by s) = s.
Proof.
  cbv [get_leaderboard bind ret raise lift select_where get].
  destruct (sort_by =? "win_pct")%string; [reflexivity|].
  destruct (sort_by =? "wins")%string; reflexivity.
Qed.

Lemma state_after_table {F : Binary64} (op : operation) (s : State) :
  table_sound (boxers s) -> table_sound (boxers (state_after op s)).
Proof.
  intros H. destruct op as [o | | |]; cbn [state_after].
  - destruct o as [b | n | t | x |]; try exact H.
    destruct (Nat.leb_spec 2 (List.length (ring s))) as [Hfull | Hfree].
    + rewrite enter_ring_full by exact Hfull. exact H.
    + rewrite enter_ring_free by exact Hfree. exact H.
  - destruct (fight_table s) as [-> | [[w [_ ->]] | [w [l [_ [_ ->]]]]]];
      [exact H | now apply stats_updated_sound |
       now apply stats_updated_sound, stats_updated_sound].
  - cbv [clear_ring bind get ret set_ring]. destruct (ring s); exact H.
  - exact H.
Qed.

Lemma run_table {F : Binary64} (c : command) (s : State) :
  table_sound (boxers s) -> table_sound (boxers (run c s)).
Proof.
  intros H. destruct c; cbn [run].
  - now apply create_boxer_sound.
  - now apply delete_boxer_sound.
  - now apply update_boxer_stats_sound.
  - rewrite get_leaderboard_state. exact H.
  - rewrite get_boxer_by_id_run. exact H.
  - rewrite get_boxer_by_name_run. exact H.
  - now apply state_after_table.
Qed.

Lemma run_ring {F : Binary64} (c : command) (s : State) :
  (List.length (ring s) <= 2)%nat -> (List.length (ring (run c s)) <= 2)%nat.
Proof.
  intros H. destruct c; cbn [run].
  - rewrite create_boxer_run.
    destruct (_ <? _); [exact H|]. destruct (_ <=? _); [exact H|].
    destruct (Rle_dec _ _); [exact H|]. destruct (negb _); [exact H|].
    destruct (filter _ _); exact H.
  - rewrite delete_boxer_run. destruct (filter _ _); exact H.
  - rewrite update_boxer_stats_ring. exact H.
  - rewrite get_leaderboard_state. exact H.
  - rewrite get_boxer_by_id_run. exact H.
  - rewrite get_boxer_by_name_run. exact H.
  - now apply state_after_capacity.
Qed.

(** X6: whatever calls are made, in whatever order and whether they
    return or raise, a table of sound rows with distinct names stays one
    (weights of at least 125, positive heights and reaches, ages between 18
    and 40, and never more wins than fights), and a ring of at most two
    boxers stays one.  The empty table and the empty ring are such, so every
    state a session reaches from them is. *)
Theorem session_keeps_table_and_ring {F : Binary64} (cmds : list command)
    (s : State) :
  table_sound (boxers s) ->
  (List.length (ring s) <= 2)%nat ->
  table_sound (boxers (fold_left (fun s c => run c s) cmds s)) /\
  (List.length (ring (fold_left (fun s c => run c s) cmds s)) <= 2)%nat.
Proof.
  revert s. induction cmds as [|c cmds IH]; intros s Ht Hr; cbn [fold_left].
  - now split.
  - apply IH; [now apply run_table | now apply run_ring].
Qed.

Lemma session_keeps_table_and_ring_witness :
  let s := mkState [] [] always_tenth 0 [] in
  let cmds :=
    [CreateBoxer "Mike Tyson" 220 178 71 25;
     CreateBoxer "Mike Tyson" 120 0 0 17;
     CreateBoxer "Muhammad Ali" 215 191 78 30;
     OnRing (Enter (ABoxer tyson)); OnRing (Enter (ABoxer ali));
     OnRing Fight; DeleteBoxer 2; UpdateBoxerStats 2 "win";
     GetLeaderboard "wins"] in
  table_sound (boxers (fold_left (fun s c => @run Exact c s) cmds s)) /\
  (List.length (ring (fold_left (fun s c => @run Exact c s) cmds s)) <= 2)%nat.
Proof.
  intros s cmds. apply (@session_keeps_table_and_ring Exact cmds s).
  - split; constructor.
  - cbn. lia.
Defined.

(** * What a fight does to the table *)

Lemma Forall2_map_same {A : Type} (R' : A -> A -> Prop) (f : A -> A)
    (l : list A) :
  (forall a, In a l -> R' a (f a)) -> Forall2 R' l (map f l).
Proof.
  induction l as [|a l IH]; intros H; cbn [map]; constructor.
  - apply H. now left.
  - apply IH. intros x Hx. apply H. now right.
Qed.

Lemma counted_up_refl (r : row) : counted_up r r.
Proof. unfold counted_up. repeat split; lia. Qed.

Lemma stats_updated_rows (ids : list Z) (boxer_id : Z) (result : string)
    (t : list row) :
  In boxer_id ids ->
  Forall2 (fun r r' => counted_up r r' /\ (~ In (row_id r) ids -> r' = r))
          t (stats_updated boxer_id result t).
Proof.
  intros Hid. unfold stats_updated. apply Forall2_map_same. intros r _.
  destruct (Z.eqb_spec (row_id r) boxer_id) as [E | E].
  - split.
    + unfold counted_up. cbn. repeat split; try lia.
      destruct (result =? "win")%string; lia.
    + intros Hno. exfalso. apply Hno. now rewrite E.
  - split; [apply counted_up_refl | reflexivity].
Qed.

Lemma rows_twice (ids : list Z) (t1 t2 t3 : list row) :
  Forall2 (fun r r' => counted_up r r' /\ (~ In (row_id r) ids -> r' = r)) t1 t2 ->
  Forall2 (fun r r' => counted_up r r' /\ (~ In (row_id r) ids -> r' = r)) t2 t3 ->
  Forall2 (fun r r' => counted_up r r' /\ (~ In (row_id r) ids -> r' = r)) t1 t3.
Proof.
  intros H12. revert t3. induction H12 as [|a b l1 l2 [Hab Hab'] H12 IH];
    intros t3 H23; inversion H23 as [|b' c l2' l3 [Hbc Hbc'] H23']; subst;
    constructor.
  - split.
    + unfold counted_up in *. intuition (try congruence; try lia).
    + intros Hno. rewrite Hbc'; [now apply Hab'|].
      destruct Hab as [-> _]. exact Hno.
  - now apply IH.
Qed.

(** X7: whatever [fight] does, returning or raising, the table keeps its
    rows in their places: none is added, none removed; in each row the id,
    name, weight, height, reach and age are as before and neither counter
    went down; and a row whose id is not the id of a boxer in the ring is
    exactly as before. *)
Theorem fight_only_counts_up {F : Binary64} (s : State) :
  Forall2 (fun r r' =>
             counted_up r r' /\
             (~ In (row_id r) (map id (ring s)) -> r' = r))
          (boxers s) (boxers (snd (fight s))).
Proof.
  destruct (fight_table s) as [-> | [[w [Hw ->]] | [w [l [Hw [Hl ->]]]]]].
  - replace (boxers s) with (map (fun r : row => r) (boxers s)) at 2
      by apply map_id.
    apply Forall2_map_same. intros r _.
    split; [apply counted_up_refl | reflexivity].
  - apply stats_updated_rows. now apply in_map.
  - eapply rows_twice; apply stats_updated_rows; now apply in_map.
Qed.

(** * A fight without a random number *)

(** X8: two boxers are in the ring and random.org does not deliver a
    number: the request times out, fails, or brings a body that is no float.
    Then [fight] raises the error of [get_random] for that case after one
    request; no statistics are updated, the table is as before and both
    boxers are still in the ring. *)
Theorem fight_without_number {F : Binary64} (s : State)
    (boxer_1 boxer_2 : Boxer) :
  ring s = [boxer_1; boxer_2] ->
  let asked :=
    mkState [boxer_1; boxer_2] (boxers s) (random_org s) (S (requests s))
            (calls s ++ [CallGetRandom]) in
  (random_org s (requests s) = TimedOut ->
     fight s = (Raise RandomTimeout, asked)) /\
  (forall why, random_org s (requests s) = Failed why ->
     fight s = (Raise (RandomUnavailable why), asked)) /\
  (forall text, random_org s (requests s) = Text text None ->
     fight s = (Raise (MalformedResponse text), asked)).
Proof.
  intros Hring asked.
  assert (Ha : after_draw s = asked).
  { unfold after_draw, asked. rewrite Hring. reflexivity. }
  rewrite (fight_draw s boxer_1 boxer_2 Hring), get_random_run, Ha.
  split; [|split].
  - intros ->. reflexivity.
  - intros why ->. reflexivity.
  - intros text ->. reflexivity.
Qed.

Lemma fight_without_number_witness :
  let s := mkState [tyson; ali] [tyson_row; ali_row] (fun _ => TimedOut) 0 [] in
  @fight Exact s =
    (Raise (RuntimeError "Request to random.org timed out."),
     mkState [tyson; ali] [tyson_row; ali_row] (fun _ => TimedOut) 1
             [CallGetRandom]).
Proof.
  intros s.
  apply (@fight_without_number Exact s tyson ali eq_refl). reflexivity.
Defined.

(** * Clearing and filling the ring *)

Lemma clear_ring_run (s : State) :
  clear_ring s =
    (Ok tt, mkState [] (boxers s) (random_org s) (requests s) (calls s)).
Proof.
  cbv [clear_ring bind get ret set_ring].
  destruct s as [rg t ro rq cl]. destruct rg; reflexivity.
Qed.

(** X9: [clear_ring] always returns, whatever the ring holds, and leaves
    the ring empty and the rest of the state as it was; a second call changes
    nothing.  After it a fight cannot start, and two boxers entered one after
    the other are the ring, in that order, which [get_boxers] returns; a
    third is refused. *)
Theorem clear_ring_then_enter {F : Binary64} (s : State) (b1 b2 b3 : Boxer) :
  let cleared := mkState [] (boxers s) (random_org s) (requests s) (calls s) in
  let filled :=
    mkState [b1; b2] (boxers s) (random_org s) (requests s) (calls s) in
  clear_ring s = (Ok tt, cleared) /\
  clear_ring cleared = (Ok tt, cleared) /\
  fight cleared = (Raise InsufficientOccupants, cleared) /\
  (enter_ring (ABoxer b1) ;; enter_ring (ABoxer b2)) cleared = (Ok tt, filled) /\
  get_boxers filled = (Ok [b1; b2], filled) /\
  enter_ring (ABoxer b3) filled = (Raise RingFull, filled).
Proof.
  intros cleared filled.
  split; [apply clear_ring_run|].
  split; [apply clear_ring_run|].
  split; [apply fight_short; cbn; lia|].
  split; [|split].
  - unfold bind. rewrite enter_ring_free by (cbn; lia).
    rewrite enter_ring_free by (cbn; lia). reflexivity.
  - reflexivity.
  - apply enter_ring_full. cbn. lia.
Qed.

(** * Both orders of the leaderboard *)

Lemma leaderboard_loop_map {F : Binary64} :
  exists shown : row -> entry,
    (forall r, entry_id (shown r) = row_id r) /\
    forall rows : list row,
      Forall (fun r => 125 <= row_weight r) rows ->
      leaderboard_loop rows = Ok (map shown rows).
Proof.
  exists (fun r =>
            mkEntry (row_id r) (row_name r) (row_weight r) (row_height r)
                    (row_reach r) (row_age r)
                    (match get_weight_class (row_weight r) with
                     | Ok wc => wc
                     | Raise _ => ""
                     end)
                    (row_fights r) (row_wins r) (win_pct r)).
  split; [reflexivity|].
  induction 1 as [|r rows Hr Hrows IH]; cbn [leaderboard_loop map];
    [reflexivity|].
  rewrite IH. unfold leaderboard_entry.
  destruct (boxer_of_row_heavy r Hr) as [wc [-> _]]. reflexivity.
Qed.

Lemma selected_weights (t : list row) (ge : row -> row -> bool) :
  Forall (fun r => 125 <= row_weight r) t ->
  Forall (fun r => 125 <= row_weight r)
         (order_by_desc ge (filter (fun r => row_fights r >? 0) t)).
Proof.
  intros H.
  apply (Permutation_Forall (Permutation_sym (order_by_desc_perm row ge _))).
  rewrite Forall_forall in *. intros r Hin. apply filter_In in Hin.
  now apply H.
Qed.

(** X10: on a table whose weights are all at least 125, the leaderboard
    by wins and the leaderboard by win percentage hold the same entries, each
    as many times, in whatever order: sorting chooses the order and not the
    content.  Both have one entry for each row with fights, so both are empty
    when no boxer has fought, and neither call changes the state. *)
Theorem leaderboard_orders_agree {F : Binary64} (s : State) :
  Forall (fun r => 125 <= row_weight r) (boxers s) ->
  exists by_wins by_pct : list entry,
    get_leaderboard "wins" s = (Ok by_wins, s) /\
    get_leaderboard "win_pct" s = (Ok by_pct, s) /\
    Permutation by_wins by_pct /\
    List.length by_wins =
      List.length (filter (fun r => row_fights r >? 0) (boxers s)) /\
    ((forall r, In r (boxers s) -> row_fights r <= 0) ->
       by_wins = [] /\ by_pct = []).
Proof.
  intros Hw. destruct leaderboard_loop_map as [shown [_ Hshown]].
  set (selected := filter (fun r => row_fights r >? 0) (boxers s)).
  set (ge_wins := fun r1 r2 : row => row_wins r1 >=? row_wins r2).
  set (ge_pct := fun r1 r2 : row => Rgeb (win_ratio r1) (win_ratio r2)).
  exists (map shown (order_by_desc ge_wins selected)),
         (map shown (order_by_desc ge_pct selected)).
  split; [|split; [|split; [|split]]].
  - rewrite (get_leaderboard_ordered s "wins" ge_wins) by (right; auto).
    fold selected. rewrite Hshown by now apply selected_weights.
    reflexivity.
  - rewrite (get_leaderboard_ordered s "win_pct" ge_pct) by (left; auto).
    fold selected. rewrite Hshown by now apply selected_weights.
    reflexivity.
  - apply Permutation_map.
    rewrite (order_by_desc_perm row ge_wins selected).
    symmetry. apply order_by_desc_perm.
  - rewrite length_map.
    apply Permutation_length, order_by_desc_perm.
  - intros Hnone.
    assert (E : selected = []).
    { subst selected. destruct (filter _ (boxers s)) as [|r l] eqn:E;
        [reflexivity|].
      assert (Hin : In r (filter (fun r => row_fights r >? 0) (boxers s)))
        by (rewrite E; now left).
      apply filter_In in Hin. destruct Hin as [Hin Hf].
      apply Z.gtb_lt in Hf. specialize (Hnone r Hin). lia. }
    rewrite E. split; reflexivity.
Qed.

Lemma leaderboard_orders_agree_witness :
  exists by_wins by_pct : list entry,
    @get_leaderboard Exact "wins" three_rows = (Ok by_wins, three_rows) /\
    @get_leaderboard Exact "win_pct" three_rows = (Ok by_pct, three_rows) /\
    Permutation by_wins by_pct /\
    List.length by_wins =
      List.length (filter (fun r => row_fights r >? 0) (boxers three_rows)) /\
    ((forall r, In r (boxers three_rows) -> row_fights r <= 0) ->
       by_wins = [] /\ by_pct = []).
Proof.
  apply (@leaderboard_orders_agree Exact three_rows).
  repeat constructor; cbn; lia.
Defined.

(** * From the ring to the leaderboard *)

Lemma stats_updated_fought (boxer_id : Z) (result : string) (t : list row)
    (r : row) :
  In r t -> 0 <= row_fights r ->
  exists r',
    In r' (stats_updated boxer_id result t) /\
    row_id r' = row_id r /\
    row_fights r <= row_fights r' /\
    (row_id r = boxer_id -> 0 < row_fights r').
Proof.
  intros Hin Hf. unfold stats_updated.
  eexists. split; [apply in_map; exact Hin|]. cbv beta.
  destruct (Z.eqb_spec (row_id r) boxer_id) as [E | E]; cbn;
    repeat split; try lia; intros; lia.
Qed.

(** X11: after a fight that returns, both fighters are on the
    leaderboard.  The table is sound, two boxers with rows are in the ring
    and random.org delivers a number; then [get_leaderboard], by wins or by
    win percentage, returns on the state the fight leaves, and the ids of
    both boxers are among the ids of its entries. *)
Theorem fighters_reach_leaderboard {F : Binary64} (s : State)
    (boxer_1 boxer_2 : Boxer) (text : string) (r : R) (sort_by : string) :
  table_sound (boxers s) ->
  ring s = [boxer_1; boxer_2] ->
  random_org s (requests s) = Text text (Some r) ->
  (exists row_1, In row_1 (boxers s) /\ row_id row_1 = id boxer_1) ->
  (exists row_2, In row_2 (boxers s) /\ row_id row_2 = id boxer_2) ->
  sort_by = "wins" \/ sort_by = "win_pct" ->
  exists leaderboard : list entry,
    get_leaderboard sort_by (snd (fight s)) = (Ok leaderboard, snd (fight s)) /\
    In (id boxer_1) (map entry_id leaderboard) /\
    In (id boxer_2) (map entry_id leaderboard).
Proof.
  intros Hsound Hring Hdraw H1 H2 Hsort.
  assert (Hne : ring s <> []) by (rewrite Hring; discriminate).
  assert (Hcase : exists w l,
             (w = boxer_1 /\ l = boxer_2 \/ w = boxer_2 /\ l = boxer_1) /\
             boxers (snd (fight s)) =
               stats_updated (id l) "loss"
                 (stats_updated (id w) "win" (boxers s))).
  { rewrite (fight_with_draw s boxer_1 boxer_2 text r Hring Hdraw).
    destruct (Rlt_dec r _).
    - exists boxer_1, boxer_2. split; [now left|].
      now rewrite (settle_both_found _ _ s Hne H1 H2).
    - exists boxer_2, boxer_1. split; [now right|].
      now rewrite (settle_both_found _ _ s Hne H2 H1). }
  destruct Hcase as [w [l [Hwl Htable]]].
  set (s' := snd (fight s)) in *.
  assert (Hsound' : table_sound (boxers s')).
  { rewrite Htable. now apply stats_updated_sound, stats_updated_sound. }
  assert (Hweights : Forall (fun r => 125 <= row_weight r) (boxers s')).
  { destruct Hsound' as [Hrows _]. eapply Forall_impl; [|exact Hrows].
    intros a Ha. apply Ha. }
  assert (Hfought : forall b, b = w \/ b = l ->
             (exists r0, In r0 (boxers s) /\ row_id r0 = id b) ->
             exists r', In r' (boxers s') /\ row_id r' = id b /\
                        0 < row_fights r').
  { intros b Hb [r0 [Hin Hid]].
    assert (H0 : 0 <= row_fights r0).
    { destruct Hsound as [Hrows _]. rewrite Forall_forall in Hrows.
      specialize (Hrows r0 Hin). unfold row_sound in Hrows. lia. }
    destruct (stats_updated_fought (id w) "win" _ r0 Hin H0)
      as [r1 [Hin1 [Hid1 [Hle1 Hpos1]]]].
    assert (H1' : 0 <= row_fights r1) by lia.
    destruct (stats_updated_fought (id l) "loss" _ r1 Hin1 H1')
      as [r2 [Hin2 [Hid2 [Hle2 Hpos2]]]].
    exists r2. rewrite Htable. split; [exact Hin2|].
    split; [congruence|].
    destruct Hb as [-> | ->].
    - assert (0 < row_fights r1) by (apply Hpos1; congruence). lia.
    - apply Hpos2. congruence. }
  destruct leaderboard_loop_map as [shown [Hshown_id Hshown]].
  assert (Hlisted : forall ge b,
             b = w \/ b = l ->
             (exists r0, In r0 (boxers s) /\ row_id r0 = id b) ->
             In (id b)
                (map entry_id
                   (map shown
                      (order_by_desc ge
                         (filter (fun r => row_fights r >? 0) (boxers s')))))).
  { intros ge b Hb Hrow.
    destruct (Hfought b Hb Hrow) as [r' [Hin [Hid Hpos]]].
    rewrite <- Hid, <- Hshown_id. apply in_map, in_map.
    apply (Permutation_in _ (Permutation_sym (order_by_desc_perm row ge _))).
    apply filter_In. split; [exact Hin | now apply Z.gtb_lt]. }
  assert (Hb1 : boxer_1 = w \/ boxer_1 = l) by (destruct Hwl as [[-> ->] | [-> ->]]; auto).
  assert (Hb2 : boxer_2 = w \/ boxer_2 = l) by (destruct Hwl as [[-> ->] | [-> ->]]; auto).
  destruct Hsort as [-> | ->].
  - eexists. split; [|split].
    + rewrite (get_leaderboard_ordered s' "wins"
                 (fun r1 r2 => row_wins r1 >=? row_wins r2)) by (right; auto).
      rewrite Hshown by now apply selected_weights. reflexivity.
    + now apply Hlisted.
    + now apply Hlisted.
  - eexists. split; [|split].
    + rewrite (get_leaderboard_ordered s' "win_pct"
                 (fun r1 r2 => Rgeb (win_ratio r1) (win_ratio r2)))
        by (left; auto).
      rewrite Hshown by now apply selected_weights. reflexivity.
    + now apply Hlisted.
    + now apply Hlisted.
Qed.

Lemma fighters_reach_leaderboard_witness :
  let s := mkState [tyson; ali] [tyson_row; ali_row] always_tenth 0 [] in
  exists leaderboard : list entry,
    @get_leaderboard Exact "wins" (snd (@fight Exact s))
      = (Ok leaderboard, snd (@fight Exact s)) /\
    In 1 (map entry_id leaderboard) /\
    In 2 (map entry_id leaderboard).
Proof.
  intros s.
  apply (@fighters_reach_leaderboard Exact s tyson ali "0.10" (1 / 10)%R "wins").
  - split.
    + repeat constructor; cbn; try lia; lra.
    + cbn. constructor; [intros [H | []]; discriminate|].
      constructor; [intros [] | constructor].
  - reflexivity.
  - reflexivity.
  - exists tyson_row. split; [now left | reflexivity].
  - exists ali_row. split; [right; now left | reflexivity].
  - now left.
Defined.

(** * Order of skills *)

Section SkillOrder.
Context {F : Binary64}.




End SkillOrder.



(** * Two updates in either order *)

Lemma update_boxer_stats_table (boxer_id : Z) (result : string) (s : State) :
  boxers (snd (update_boxer_stats boxer_id result s)) =
    if negb (existsb (String.eqb result) ["win"; "loss"]) then boxers s
    else match filter (has_id boxer_id) (boxers s) with
         | [] => boxers s
         | _ :: _ => stats_updated boxer_id result (boxers s)
         end.
Proof.
  rewrite update_boxer_stats_run.
  destruct (negb _); [reflexivity|]. destruct (filter _ _); reflexivity.
Qed.

Lemma stats_updated_swap (i j : Z) (a b : string) (t : list row) :
  stats_updated j b (stats_updated i a t) =
  stats_updated i a (stats_updated j b t).
Proof.
  unfold stats_updated. rewrite !map_map. apply map_ext. intros r.
  destruct (row_id r =? i) eqn:Ei; destruct (row_id r =? j) eqn:Ej;
    cbn [row_id row_name row_weight row_height row_reach row_age
         row_fights row_wins];
    rewrite ?Ei, ?Ej; try reflexivity.
  f_equal. destruct (a =? "win")%string; destruct (b =? "win")%string; lia.
Qed.

(** X13: two calls of [update_boxer_stats], for any ids and results and
    whether each returns or raises, leave the same table in either order. *)
Theorem update_boxer_stats_either_order (i j : Z) (a b : string) (s : State) :
  boxers (snd (update_boxer_stats j b (snd (update_boxer_stats i a s)))) =
  boxers (snd (update_boxer_stats i a (snd (update_boxer_stats j b s)))).
Proof.
  rewrite !update_boxer_stats_table.
  destruct (negb (existsb (String.eqb a) ["win"; "loss"]));
    destruct (negb (existsb (String.eqb b) ["win"; "loss"])); try reflexivity.
  destruct (filter (has_id i) (boxers s)) as [|ri li] eqn:Ei;
    destruct (filter (has_id j) (boxers s)) as [|rj lj] eqn:Ej;
    rewrite ?Ei, ?Ej; try reflexivity.
  - destruct (filter (has_id i) (stats_updated j b (boxers s))) eqn:E;
      [reflexivity|].
    apply (filter_has_id_stats_updated i j b) in Ei. rewrite Ei in E.
    discriminate.
  - destruct (filter (has_id j) (stats_updated i a (boxers s))) eqn:E;
      [reflexivity|].
    apply (filter_has_id_stats_updated j i a) in Ej. rewrite Ej in E.
    discriminate.
  - destruct (filter (has_id j) (stats_updated i a (boxers s))) eqn:E1.
    { apply filter_has_id_stats_updated in E1. rewrite E1 in Ej. discriminate. }
    destruct (filter (has_id i) (stats_updated j b (boxers s))) eqn:E2.
    { apply filter_has_id_stats_updated in E2. rewrite E2 in Ei. discriminate. }
    apply stats_updated_swap.
Qed.
